(** * DateRangeInput: the text/date reconciliation state machine

    A shallow embedding of [packages/datetime/src/dateRangeInput.tsx].
    The component keeps, for each of the two boundaries of a date range, a
    stored moment, the text being typed and a focus flag, plus the popover's
    open flag.  Every event handler reads [this.state] and [this.props] and
    calls [setState] once, so a handler is a function from the state to the
    next state, together with the calls it makes to the embedder's
    [onChange]/[onError] props, or a [TypeError] where the source dereferences
    [null].

    The moment.js library and the native [Date] object are not part of the
    repository: the operations the component uses from them are the fields
    of the class [MomentEnv], and everything below holds for every instance.
    [Iso.env], at the end of the definitions, is a small executable instance
    for the default pattern YYYY-MM-DD on which the examples run. *)

From Stdlib Require Import String Ascii List ZArith Bool Lia.
Import ListNotations.

Local Open Scope string_scope.

(** ** The date library *)

(** The seven broken-down fields that both [Date] getters and moment getters
    expose: year, month (0-based), date, hours, minutes, seconds, ms. *)
Record DateFields : Type := mkFields {
  fYear : Z;
  fMonth : Z;
  fDate : Z;
  fHours : Z;
  fMinutes : Z;
  fSeconds : Z;
  fMilliseconds : Z
}.

Class MomentEnv : Type := {
  (** the point in time wrapped by a valid moment *)
  Instant : Type;
  (** native [Date] objects *)
  JSDate : Type;
  (** [moment(text, pattern)] on a string: [Some] iff the result [isValid()] *)
  parseInstant : string -> string -> option Instant;
  (** [m.format(pattern)] on a valid moment *)
  formatInstant : Instant -> string -> string;
  (** what [format] returns on an invalid moment (the locale's invalidDate) *)
  invalidDateText : string;
  (** [moment([y, mo, d, h, mi, s, ms])]: [Some] iff the result [isValid()] *)
  arrayInstant : DateFields -> option Instant;
  (** [m.year()], [m.month()], ..., [m.milliseconds()] *)
  instantFields : Instant -> DateFields;
  (** [date.getFullYear()], [date.getMonth()], ..., [date.getMilliseconds()] *)
  dateFields : JSDate -> DateFields;
  (** [new Date(y, mo, d, h, mi, s, ms)] *)
  newDate : DateFields -> JSDate;
  (** the calendar day an instant, resp. a [Date], falls on, as a day number:
      what comparisons at granularity "day" look at *)
  instantDay : Instant -> Z;
  dateDay : JSDate -> Z
}.

(** A [moment.Moment] object: invalid (remembering the [nullInput] parsing
    flag) or valid.  A JavaScript [null] in a moment-typed slot is [None] of
    [option Moment]. *)
Inductive Moment `{MomentEnv} : Type :=
| Invalid (nullInputFlag : bool)
| Valid (t : Instant).

Arguments Invalid {_} nullInputFlag.
Arguments Valid {_} t.

Module moment.
Section Api.
Context `{MomentEnv}.

(** [moment(null)] *)
Definition null : Moment := Invalid true.

(** [moment(text, pattern)]; [text] may be [null], which sets [nullInput]. *)
Definition ofText (text : option string) (pattern : string) : Moment :=
  match text with
  | None => Invalid true
  | Some s =>
      match parseInstant s pattern with
      | Some t => Valid t
      | None => Invalid false
      end
  end.

(** [moment([y, mo, d, h, mi, s, ms])] *)
Definition ofArray (a : DateFields) : Moment :=
  match arrayInstant a with
  | Some t => Valid t
  | None => Invalid false
  end.

Definition isValid (m : Moment) : bool :=
  match m with
  | Valid _ => true
  | Invalid _ => false
  end.

(** [m.parsingFlags().nullInput] *)
Definition nullInput (m : Moment) : bool :=
  match m with
  | Valid _ => false
  | Invalid b => b
  end.

Definition format (m : Moment) (pattern : string) : string :=
  match m with
  | Valid t => formatInstant t pattern
  | Invalid _ => invalidDateText
  end.

(** [m.isBetween(from, to, "day", "[]")]: both ends inclusive, compared by
    calendar day; an invalid moment is between nothing. *)
Definition isBetween (m : Moment) (from to : JSDate) : bool :=
  match m with
  | Valid t => (dateDay from <=? instantDay t)%Z && (instantDay t <=? dateDay to)%Z
  | Invalid _ => false
  end.

(** [m.year()], [m.month()], ... read off a valid moment. *)
Definition fields (t : Instant) : DateFields := instantFields t.
End Api.
End moment.

(** ** Props and state *)

(** A native [Date] object as the component may receive or build one: a
    proper date, or the invalid date that [new Date(undefined)] and
    [new Date(NaN, ...)] give. *)
Inductive NativeDate `{MomentEnv} : Type :=
| InvalidDate
| ValidDate (d : JSDate).

Arguments InvalidDate {_}.
Arguments ValidDate {_} d.

(** [DateRange = [Date, Date]], either end possibly [null] ([None]). *)
Definition DateRange `{MomentEnv} : Type := (option NativeDate * option NativeDate)%type.

(** The props the state machine reads.  [value = None] is [undefined]: the
    component is uncontrolled.  [minDate] and [maxDate] are proper dates, as
    the defaults are. *)
Record IDateRangeInputProps `{MomentEnv} : Type := mkProps {
  defaultValue : option DateRange;
  format : string;
  invalidDateMessage : string;
  maxDate : JSDate;
  minDate : JSDate;
  openOnFocus : bool;
  outOfRangeMessage : string;
  value : option DateRange
}.

Arguments mkProps {_}.

(** [None] in a moment or string slot is JavaScript [null]. *)
Record IDateRangeInputState `{MomentEnv} : Type := mkState {
  isOpen : bool;
  isStartDateInputFocused : bool;
  startDateValue : option Moment;
  startDateValueString : option string;
  isEndDateInputFocused : bool;
  endDateValue : option Moment;
  endDateValueString : option string
}.

Arguments mkState {_}.

(** The computed keys the generic handlers are called with. *)
Inductive ValueKey : Type := startDateValueK | endDateValueK.
Inductive ValueStringKey : Type := startDateValueStringK | endDateValueStringK.
Inductive FocusKey : Type := isStartDateInputFocusedK | isEndDateInputFocusedK.

(** A call the component makes to one of the embedder's callbacks. *)
Inductive Callback `{MomentEnv} : Type :=
| onChange (selectedDates : DateRange)
| onError (errorDate : NativeDate).

Arguments onChange {_} selectedDates.
Arguments onError {_} errorDate.

(** What running a handler produces. *)
Inductive Outcome `{MomentEnv} : Type :=
| Done (next : IDateRangeInputState) (calls : list Callback)
| TypeError.

Arguments Done {_} next calls.
Arguments TypeError {_}.

Section StateAccess.
Context `{MomentEnv}.

Definition getValue (k : ValueKey) (st : IDateRangeInputState) : option Moment :=
  match k with
  | startDateValueK => startDateValue st
  | endDateValueK => endDateValue st
  end.

Definition getValueString (k : ValueStringKey) (st : IDateRangeInputState) : option string :=
  match k with
  | startDateValueStringK => startDateValueString st
  | endDateValueStringK => endDateValueString st
  end.

Definition getFocus (k : FocusKey) (st : IDateRangeInputState) : bool :=
  match k with
  | isStartDateInputFocusedK => isStartDateInputFocused st
  | isEndDateInputFocusedK => isEndDateInputFocused st
  end.

(** [setState({ [k]: v })], one function per type of slot. *)
Definition setValue (k : ValueKey) (v : option Moment) (st : IDateRangeInputState)
  : IDateRangeInputState :=
  match k with
  | startDateValueK =>
      mkState (isOpen st) (isStartDateInputFocused st) v (startDateValueString st)
              (isEndDateInputFocused st) (endDateValue st) (endDateValueString st)
  | endDateValueK =>
      mkState (isOpen st) (isStartDateInputFocused st) (startDateValue st)
              (startDateValueString st) (isEndDateInputFocused st) v
              (endDateValueString st)
  end.

Definition setValueString (k : ValueStringKey) (s : option string)
           (st : IDateRangeInputState) : IDateRangeInputState :=
  match k with
  | startDateValueStringK =>
      mkState (isOpen st) (isStartDateInputFocused st) (startDateValue st) s
              (isEndDateInputFocused st) (endDateValue st) (endDateValueString st)
  | endDateValueStringK =>
      mkState (isOpen st) (isStartDateInputFocused st) (startDateValue st)
              (startDateValueString st) (isEndDateInputFocused st) (endDateValue st) s
  end.

Definition setFocus (k : FocusKey) (b : bool) (st : IDateRangeInputState)
  : IDateRangeInputState :=
  match k with
  | isStartDateInputFocusedK =>
      mkState (isOpen st) b (startDateValue st) (startDateValueString st)
              (isEndDateInputFocused st) (endDateValue st) (endDateValueString st)
  | isEndDateInputFocusedK =>
      mkState (isOpen st) (isStartDateInputFocused st) (startDateValue st)
              (startDateValueString st) b (endDateValue st) (endDateValueString st)
  end.

Definition setIsOpen (b : bool) (st : IDateRangeInputState) : IDateRangeInputState :=
  mkState b (isStartDateInputFocused st) (startDateValue st) (startDateValueString st)
          (isEndDateInputFocused st) (endDateValue st) (endDateValueString st).
End StateAccess.

(** ** The component *)

Section Component.
Context `{MomentEnv}.
Variable props : IDateRangeInputProps.

Definition isNull (value : option Moment) : bool :=
  match value with
  | None => true
  | Some m => moment.nullInput m
  end.

Definition dateIsInRange (value : option Moment) : bool :=
  match value with
  | None => false
  | Some m => moment.isBetween m (minDate props) (maxDate props)
  end.

Definition isDateValidAndInRange (value : option Moment) : bool :=
  match value with
  | None => false
  | Some m => moment.isValid m && dateIsInRange value
  end.

(** [getDateStringForDisplay]; after [isNull] has answered no, [value] is an
    object and [value.isValid()] is defined. *)
Definition getDateStringForDisplay (value : option Moment) : string :=
  if isNull value then ""
  else
    match value with
    | None => ""
    | Some m =>
        if negb (moment.isValid m) then invalidDateMessage props
        else if negb (dateIsInRange value) then outOfRangeMessage props
        else moment.format m (format props)
    end.

(** [momentDate == null] gives [undefined] ([None]); the getters of an
    invalid moment are all [NaN], and [new Date(NaN, ...)] is the invalid
    date. *)
Definition fromMomentToDate (momentDate : option Moment) : option NativeDate :=
  match momentDate with
  | None => None
  | Some (Invalid _) => Some InvalidDate
  | Some (Valid t) => Some (ValidDate (newDate (moment.fields t)))
  end.

(** [typeof date === "string"] is never true of a [Date]; [moment(null)] for
    a [null] end, the array constructor otherwise (all [NaN] for an invalid
    date, which moment rejects). *)
Definition fromDateToMoment (date : option NativeDate) : Moment :=
  match date with
  | None => moment.null
  | Some InvalidDate => Invalid false
  | Some (ValidDate d) => moment.ofArray (dateFields d)
  end.

Definition getDefaultDateRange : Moment * Moment :=
  match defaultValue props with
  | Some (d0, d1) => (fromDateToMoment d0, fromDateToMoment d1)
  | None => (moment.null, moment.null)
  end.

(** The state the constructor builds. *)
Definition initialState : IDateRangeInputState :=
  let (defaultStartDateValue, defaultEndDateValue) := getDefaultDateRange in
  let startDateValue :=
    match value props with
    | Some (Some d, _) => fromDateToMoment (Some d)
    | _ => defaultStartDateValue
    end in
  let endDateValue :=
    match value props with
    | Some (_, Some d) => fromDateToMoment (Some d)
    | _ => defaultEndDateValue
    end in
  mkState false false (Some startDateValue) None false (Some endDateValue) None.

Definition getCurrentDateRange (st : IDateRangeInputState) : DateRange :=
  let startDate :=
    if isDateValidAndInRange (startDateValue st)
    then fromMomentToDate (startDateValue st) else None in
  let endDate :=
    if isDateValidAndInRange (endDateValue st)
    then fromMomentToDate (endDateValue st) else None in
  (startDate, endDate).

(** What [render] computes from props and state and hands to the two inputs,
    the picker and the popover.  Markup and placeholders are left out. *)
Record View : Type := mkView {
  startDateString : option string;
  endDateString : option string;
  startDateInputDanger : bool;
  endDateInputDanger : bool;
  pickerValue : DateRange;
  popoverIsOpen : bool
}.

Definition isEmptyText (s : option string) : bool :=
  match s with
  | Some t => String.eqb t ""
  | None => false
  end.

Definition render (st : IDateRangeInputState) : View :=
  let startDateString :=
    if isStartDateInputFocused st then startDateValueString st
    else Some (getDateStringForDisplay (startDateValue st)) in
  let endDateString :=
    if isEndDateInputFocused st then endDateValueString st
    else Some (getDateStringForDisplay (endDateValue st)) in
  let startDateValue' :=
    if isStartDateInputFocused st
    then Some (moment.ofText (startDateValueString st) (format props))
    else startDateValue st in
  let endDateValue' :=
    if isEndDateInputFocused st
    then Some (moment.ofText (endDateValueString st) (format props))
    else endDateValue st in
  mkView startDateString endDateString
         (negb (isDateValidAndInRange startDateValue' || isNull startDateValue'
                || isEmptyText startDateString))
         (negb (isDateValidAndInRange endDateValue' || isNull endDateValue'
                || isEmptyText endDateString))
         (getCurrentDateRange st)
         (isOpen st).

(** [this.props.value === undefined] *)
Definition isUncontrolled : bool :=
  match value props with
  | None => true
  | Some _ => false
  end.

Definition handleGenericInputFocus (value : option Moment) (valueStringKey : ValueStringKey)
           (focusStateKey : FocusKey) (st : IDateRangeInputState) : Outcome :=
  let valueString :=
    if isNull value then ""
    else match value with
         | Some m => moment.format m (format props)
         | None => ""
         end in
  if openOnFocus props
  then Done (setIsOpen true (setValueString valueStringKey (Some valueString)
                               (setFocus focusStateKey true st))) []
  else Done (setValueString valueStringKey (Some valueString)
               (setFocus focusStateKey true st)) [].

(** [valueString] is read from the state and may be [null]; then
    [valueString.length] throws.  The three TODO comments of the invalid
    branch call nothing. *)
Definition handleGenericInputBlur (valueString : option string) (valueKey : ValueKey)
           (valueStringKey : ValueStringKey) (focusStatusKey : FocusKey)
           (st : IDateRangeInputState) : Outcome :=
  let value := moment.ofText valueString (format props) in
  let isValueInvalid := negb (moment.isValid value) in
  let isValueOutOfRange := negb (dateIsInRange (Some value)) in
  match valueString with
  | None => TypeError
  | Some s =>
      let isValueStringOutOfSync :=
        negb (String.eqb s (getDateStringForDisplay (startDateValue st))) in
      let isInputEmpty := Nat.eqb (String.length s) 0 in
      let didInputChangeToInvalidState :=
        negb isInputEmpty && isValueStringOutOfSync
        && (isValueInvalid || isValueOutOfRange) in
      if isInputEmpty then
        Done (setValueString valueStringKey None
                (setValue valueKey (Some moment.null)
                   (setFocus focusStatusKey false st))) []
      else if didInputChangeToInvalidState then
        if isUncontrolled then
          Done (setValueString valueStringKey None
                  (setValue valueKey (Some value)
                     (setFocus focusStatusKey false st))) []
        else
          Done (setFocus focusStatusKey false st) []
      else
        Done (setFocus focusStatusKey false st) []
  end.

Definition handleGenericInputChange (valueString : string) (valueKey : ValueKey)
           (valueStringKey : ValueStringKey) (st : IDateRangeInputState) : Outcome :=
  let value := moment.ofText (Some valueString) (format props) in
  if Nat.eqb (String.length valueString) 0 then
    Done (setValueString valueStringKey (Some "") (setValue valueKey None st)) []
  else if moment.isValid value && dateIsInRange (Some value) then
    if isUncontrolled then
      Done (setValueString valueStringKey (Some valueString)
              (setValue valueKey (Some value) st)) []
    else
      Done (setValueString valueStringKey (Some valueString) st) []
  else
    Done (setValueString valueStringKey (Some valueString) st) [].

Definition handleStartDateInputFocus (st : IDateRangeInputState) : Outcome :=
  handleGenericInputFocus (startDateValue st) startDateValueStringK
                          isStartDateInputFocusedK st.

Definition handleEndDateInputFocus (st : IDateRangeInputState) : Outcome :=
  handleGenericInputFocus (endDateValue st) endDateValueStringK
                          isEndDateInputFocusedK st.

Definition handleStartDateInputBlur (st : IDateRangeInputState) : Outcome :=
  let valueString := startDateValueString st in
  handleGenericInputBlur valueString startDateValueK startDateValueStringK
                         isStartDateInputFocusedK st.

Definition handleEndDateInputBlur (st : IDateRangeInputState) : Outcome :=
  let valueString := endDateValueString st in
  handleGenericInputBlur valueString endDateValueK endDateValueStringK
                         isEndDateInputFocusedK st.

(** [valueString] is [e.target.value], always a string. *)
Definition handleStartDateInputChange (valueString : string) (st : IDateRangeInputState)
  : Outcome :=
  handleGenericInputChange valueString startDateValueK startDateValueStringK st.

Definition handleEndDateInputChange (valueString : string) (st : IDateRangeInputState)
  : Outcome :=
  handleGenericInputChange valueString endDateValueK endDateValueStringK st.

Definition handleClosePopover (st : IDateRangeInputState) : Outcome :=
  Done (setIsOpen false st) [].

(** A [Date] object is truthy, [null] is not. *)
Definition handleDateRangeChange (dateRange : DateRange) (st : IDateRangeInputState)
  : Outcome :=
  let (startDate, endDate) := dateRange in
  let startDateValue := fromDateToMoment startDate in
  let endDateValue := fromDateToMoment endDate in
  let startDateValueString :=
    match startDate with
    | Some _ => moment.format startDateValue (format props)
    | None => ""
    end in
  let endDateValueString :=
    match endDate with
    | Some _ => moment.format endDateValue (format props)
    | None => ""
    end in
  Done (setValueString endDateValueStringK (Some endDateValueString)
          (setValueString startDateValueStringK (Some startDateValueString)
             (setValue endDateValueK (Some endDateValue)
                (setValue startDateValueK (Some startDateValue) st)))) [].

End Component.

(** ** Events *)

(** The events the host delivers to the component. *)
Inductive Event `{MomentEnv} : Type :=
| StartFocus
| EndFocus
| StartBlur
| EndBlur
| StartChange (valueString : string)
| EndChange (valueString : string)
| DateRangePick (dateRange : DateRange)
| ClosePopover.

Arguments StartFocus {_}.
Arguments EndFocus {_}.
Arguments StartBlur {_}.
Arguments EndBlur {_}.
Arguments StartChange {_} valueString.
Arguments EndChange {_} valueString.
Arguments DateRangePick {_} dateRange.
Arguments ClosePopover {_}.

Section Dispatch.
Context `{MomentEnv}.
Variable props : IDateRangeInputProps.

Definition dispatch (e : Event) (st : IDateRangeInputState) : Outcome :=
  match e with
  | StartFocus => handleStartDateInputFocus props st
  | EndFocus => handleEndDateInputFocus props st
  | StartBlur => handleStartDateInputBlur props st
  | EndBlur => handleEndDateInputBlur props st
  | StartChange s => handleStartDateInputChange props s st
  | EndChange s => handleEndDateInputChange props s st
  | DateRangePick r => handleDateRangeChange props r st
  | ClosePopover => handleClosePopover st
  end.

(** A sequence of events, delivered in order; the calls add up. *)
Fixpoint run (es : list Event) (st : IDateRangeInputState) : Outcome :=
  match es with
  | [] => Done st []
  | e :: es' =>
      match dispatch e st with
      | Done st' calls =>
          match run es' st' with
          | Done st'' calls' => Done st'' (calls ++ calls')
          | TypeError => TypeError
          end
      | TypeError => TypeError
      end
  end.

(** States the component can be in: the constructor's, and whatever a
    handler that returned leaves. *)
Inductive reachable : IDateRangeInputState -> Prop :=
| reachable_init : reachable (initialState props)
| reachable_step : forall e st st' calls,
    reachable st -> dispatch e st = Done st' calls -> reachable st'.

(** Either text slot is a string whenever its input has the focus. *)
Definition focusedTextPresent (st : IDateRangeInputState) : Prop :=
  (isStartDateInputFocused st = true -> startDateValueString st <> None)
  /\ (isEndDateInputFocused st = true -> endDateValueString st <> None).

End Dispatch.

(** ** The two boundaries

    The source selects the start or the end bookkeeping with three string
    keys; the statements below speak of one boundary at a time. *)
Inductive Boundary : Type := BStart | BEnd.

Definition valueKeyOf (b : Boundary) : ValueKey :=
  match b with BStart => startDateValueK | BEnd => endDateValueK end.

Definition valueStringKeyOf (b : Boundary) : ValueStringKey :=
  match b with BStart => startDateValueStringK | BEnd => endDateValueStringK end.

Definition focusKeyOf (b : Boundary) : FocusKey :=
  match b with BStart => isStartDateInputFocusedK | BEnd => isEndDateInputFocusedK end.

Section Boundaries.
Context `{MomentEnv}.
Variable props : IDateRangeInputProps.

Definition handleInputFocus (b : Boundary) : IDateRangeInputState -> Outcome :=
  match b with
  | BStart => handleStartDateInputFocus props
  | BEnd => handleEndDateInputFocus props
  end.

Definition handleInputBlur (b : Boundary) : IDateRangeInputState -> Outcome :=
  match b with
  | BStart => handleStartDateInputBlur props
  | BEnd => handleEndDateInputBlur props
  end.

Definition handleInputChange (b : Boundary) : string -> IDateRangeInputState -> Outcome :=
  match b with
  | BStart => handleStartDateInputChange props
  | BEnd => handleEndDateInputChange props
  end.

(** The text [render] puts in the input of boundary [b]. *)
Definition displayedText (b : Boundary) (st : IDateRangeInputState) : option string :=
  match b with
  | BStart => startDateString (render props st)
  | BEnd => endDateString (render props st)
  end.

(** The end of the picker's range that belongs to boundary [b]. *)
Definition pickerDate (b : Boundary) (st : IDateRangeInputState) : option NativeDate :=
  match b with
  | BStart => fst (pickerValue (render props st))
  | BEnd => snd (pickerValue (render props st))
  end.

(** The state in which a blur has stored [v] for boundary [b]: focus flag
    dropped, value [v], raw text [null]. *)
Definition committed (b : Boundary) (v : Moment) (st : IDateRangeInputState)
  : IDateRangeInputState :=
  setValueString (valueStringKeyOf b) None
    (setValue (valueKeyOf b) (Some v) (setFocus (focusKeyOf b) false st)).

(** [t] falls on a day of the closed interval from [minDate] to [maxDate]. *)
Definition inRange (t : Instant) : Prop :=
  (dateDay (minDate props) <= instantDay t <= dateDay (maxDate props))%Z.

(** The case split with which [handleGenericInputChange] and
    [handleGenericInputBlur] begin: the length test comes first, then
    [value.isValid()] on [moment(valueString, format)]. *)
Inductive ParsedDate : Type :=
| Empty
| InvalidText
| Parsed (t : Instant).

Definition parse (text : string) : ParsedDate :=
  if Nat.eqb (String.length text) 0 then Empty
  else
    match moment.ofText (Some text) (format props) with
    | Valid t => Parsed t
    | Invalid _ => InvalidText
    end.

End Boundaries.

(** ** An executable instance for the pattern YYYY-MM-DD *)

Module Iso.

Definition pattern : string := "YYYY-MM-DD".

Definition isDigit (c : ascii) : bool :=
  let n := nat_of_ascii c in Nat.leb 48 n && Nat.leb n 57.

Definition digitVal (c : ascii) : Z := Z.of_nat (nat_of_ascii c - 48).

Definition digitChar (n : Z) : ascii := ascii_of_nat (48 + Z.to_nat (n mod 10)).

Definition isLeap (y : Z) : bool :=
  ((y mod 4 =? 0) && negb (y mod 100 =? 0) || (y mod 400 =? 0))%Z.

(** Days of month [m] (0-based) in year [y]. *)
Definition daysInMonth (y m : Z) : Z :=
  if (m =? 1)%Z then (if isLeap y then 29 else 28)%Z
  else if ((m =? 3) || (m =? 5) || (m =? 8) || (m =? 10))%Z then 30%Z
  else 31%Z.

Definition within (lo x hi : Z) : bool := ((lo <=? x) && (x <=? hi))%Z.

Definition validFields (f : DateFields) : bool :=
  within 0 (fYear f) 9999 && within 0 (fMonth f) 11
  && within 1 (fDate f) (daysInMonth (fYear f) (fMonth f))
  && within 0 (fHours f) 23 && within 0 (fMinutes f) 59
  && within 0 (fSeconds f) 59 && within 0 (fMilliseconds f) 999.

Definition parseYMD (s : string) : option DateFields :=
  match list_ascii_of_string s with
  | [y1; y2; y3; y4; "-"%char; m1; m2; "-"%char; d1; d2] =>
      if forallb isDigit [y1; y2; y3; y4; m1; m2; d1; d2] then
        let f := mkFields
                   (digitVal y1 * 1000 + digitVal y2 * 100 + digitVal y3 * 10 + digitVal y4)
                   (digitVal m1 * 10 + digitVal m2 - 1)
                   (digitVal d1 * 10 + digitVal d2) 0 0 0 0 in
        if validFields f then Some f else None
      else None
  | _ => None
  end.

Definition formatYMD (f : DateFields) : string :=
  let y := fYear f in
  let m := (fMonth f + 1)%Z in
  let d := fDate f in
  string_of_list_ascii
    [digitChar (y / 1000); digitChar (y / 100); digitChar (y / 10); digitChar y;
     "-"%char; digitChar (m / 10); digitChar m;
     "-"%char; digitChar (d / 10); digitChar d].

(** A key that orders calendar days as the calendar does. *)
Definition dayKey (f : DateFields) : Z := (fYear f * 372 + fMonth f * 31 + fDate f)%Z.

Definition env : MomentEnv := {|
  Instant := DateFields;
  JSDate := DateFields;
  parseInstant := fun s p => if String.eqb p pattern then parseYMD s else None;
  formatInstant := fun t p => if String.eqb p pattern then formatYMD t else p;
  invalidDateText := "Invalid date";
  arrayInstant := fun a => if validFields a then Some a else None;
  instantFields := fun t => t;
  dateFields := fun d => d;
  newDate := fun a => a;
  instantDay := dayKey;
  dateDay := dayKey
|}.

Definition ymd (y m d : Z) : DateFields := mkFields y (m - 1) d 0 0 0 0.

(** The component's default props, with a fixed selectable interval. *)
Definition uncontrolledProps : @IDateRangeInputProps env :=
  @mkProps env None pattern "Invalid date" (ymd 2030 12 31) (ymd 2000 1 1) true
           "Out of range" None.

Definition controlledProps : @IDateRangeInputProps env :=
  @mkProps env None pattern "Invalid date" (ymd 2030 12 31) (ymd 2000 1 1) true
           "Out of range"
           (Some (Some (@ValidDate env (ymd 2017 1 15)), Some (@ValidDate env (ymd 2017 2 20)))).

Definition jan15 : @Moment env := @Valid env (ymd 2017 1 15).
Definition feb20 : @Moment env := @Valid env (ymd 2017 2 20).

(** The start input has the focus and holds [text]; the end input is idle. *)
Definition startTyping (text : string) : @IDateRangeInputState env :=
  @mkState env true true (Some jan15) (Some text) false (Some feb20) None.

(** The end input has the focus and holds [text]; the stored values are
    [startValue] and [endValue]. *)
Definition endTyping (startValue endValue : @Moment env) (text : string)
  : @IDateRangeInputState env :=
  @mkState env true false (Some startValue) None true (Some endValue) (Some text).

End Iso.

(** ** More of what [render] and the picker exchange *)

Section RenderSlots.
Context `{MomentEnv}.
Variable props : IDateRangeInputProps.

(** Whether [render] gives the input of boundary [b] the class
    [pt-intent-danger]. *)
Definition inputDanger (b : Boundary) (st : IDateRangeInputState) : bool :=
  match b with
  | BStart => startDateInputDanger (render props st)
  | BEnd => endDateInputDanger (render props st)
  end.

(** The end of a range that belongs to boundary [b]. *)
Definition rangeEnd (b : Boundary) (r : DateRange) : option NativeDate :=
  match b with
  | BStart => fst r
  | BEnd => snd r
  end.

(** The text [handleGenericInputFocus] seeds the input with. *)
Definition seedText (value : option Moment) : string :=
  match value with
  | Some m => if moment.nullInput m then "" else moment.format m (format props)
  | None => ""
  end.

(** The events of boundary [b]. *)
Definition focusOf (b : Boundary) : Event :=
  match b with BStart => StartFocus | BEnd => EndFocus end.

Definition blurOf (b : Boundary) : Event :=
  match b with BStart => StartBlur | BEnd => EndBlur end.

Definition changeOf (b : Boundary) (valueString : string) : Event :=
  match b with BStart => StartChange valueString | BEnd => EndChange valueString end.

(** The date that seeds boundary [b] in the constructor: the end of [value]
    when it is not [null], else the end of [defaultValue]. *)
Definition seedDate (b : Boundary) : option NativeDate :=
  match value props with
  | Some r =>
      match rangeEnd b r with
      | Some d => Some d
      | None =>
          match defaultValue props with
          | Some r0 => rangeEnd b r0
          | None => None
          end
      end
  | None =>
      match defaultValue props with
      | Some r0 => rangeEnd b r0
      | None => None
      end
  end.

End RenderSlots.

(** ** Filtering props for HTML elements

    [removeNonHTMLProps] of the core package.  A props object is the list of
    its own properties in enumeration order; what it inherits from
    [Object.prototype] is not in the list.  Two things the function uses are
    not part of the sources at hand and are parameters: [shallowClone], from
    the utilities, taken to return an ordinary object (prototype
    [Object.prototype], plain configurable properties), and what calling a
    property value as a method does. *)

Module HtmlProps.

Definition INVALID_PROPS : list string :=
  ["buttonPosition"; "containerRef"; "defaultIndeterminate"; "elementRef";
   "iconName"; "inputRef"; "intent"; "loading"; "leftIconName";
   "majorStepSize"; "minorStepSize"; "onChildrenMount"; "onRemove";
   "onConfirm"; "rightElement"; "rightIconName"; "stepSize"; "text"].

Section Objects.
Variable V : Type.

Definition JSObject : Type := list (string * V).

(** The value of the own property [key] of [o], [None] when [o] has no own
    property of that name (whatever it may inherit). *)
Definition getOwn (o : JSObject) (key : string) : option V :=
  match find (fun p => String.eqb (fst p) key) o with
  | Some p => Some (snd p)
  | None => None
  end.

(** [Object.prototype.hasOwnProperty] applied to [o] and [key]. *)
Definition hasOwn (o : JSObject) (key : string) : bool :=
  existsb (fun p => String.eqb (fst p) key) o.

(** [delete o[key]] *)
Definition delete (o : JSObject) (key : string) : JSObject :=
  filter (fun p => negb (String.eqb (fst p) key)) o.

(** The own keys of [o], in order. *)
Definition keys (o : JSObject) : list string := map fst o.

Variable shallowClone : JSObject -> JSObject.

(** [v.call(o, key)] for a property value [v]: [None] when the call throws,
    as it does with a TypeError for every [v] that is not a function;
    otherwise whether the result is truthy. *)
Variable callMethod : V -> JSObject -> string -> option bool.

(** What a call produces: the filtered object, or an exception. *)
Inductive Outcome : Type :=
| Returned (o : JSObject)
| Threw.

(** [prev.hasOwnProperty(curr)]: the method is looked up on [prev] itself
    first, and found on [Object.prototype] only when [prev] has no own
    property of that name. *)
Definition hasOwnPropertyCall (prev : JSObject) (curr : string) : option bool :=
  match getOwn prev "hasOwnProperty" with
  | Some v => callMethod v prev curr
  | None => Some (hasOwn prev curr)
  end.

(** One round of the [reduce] callback; an exception ends the reduction. *)
Definition reduceStep (acc : Outcome) (curr : string) : Outcome :=
  match acc with
  | Threw => Threw
  | Returned prev =>
      match hasOwnPropertyCall prev curr with
      | None => Threw
      | Some true => Returned (delete prev curr)
      | Some false => Returned prev
      end
  end.

(** An omitted argument ([None]) takes its default. *)
Definition removeNonHTMLProps (props : JSObject) (invalidProps : option (list string))
           (shouldMerge : option bool) : Outcome :=
  let invalidProps0 :=
    match invalidProps with Some l => l | None => INVALID_PROPS end in
  let shouldMerge0 :=
    match shouldMerge with Some b => b | None => false end in
  let invalidProps1 :=
    if shouldMerge0 then (invalidProps0 ++ INVALID_PROPS)%list else invalidProps0 in
  fold_left reduceStep invalidProps1 (Returned (shallowClone props)).

(** The keys a call goes through. *)
Definition blacklist (invalidProps : option (list string)) (shouldMerge : option bool)
  : list string :=
  match invalidProps, shouldMerge with
  | Some l, Some true => (l ++ INVALID_PROPS)%list
  | Some l, _ => l
  | None, _ => INVALID_PROPS
  end.

Definition listed (l : list string) (key : string) : bool :=
  existsb (String.eqb key) l.

End Objects.

Arguments Returned {V} o.
Arguments Threw {V}.

End HtmlProps.

(** ** More props for the examples *)

Module IsoCases.
Import Iso.

(** The popover is to open from the calendar icon only. *)
Definition iconOnlyProps : @IDateRangeInputProps env :=
  @mkProps env None pattern "Invalid date" (ymd 2030 12 31) (ymd 2000 1 1) false
           "Out of range" None.

(** [minDate] lies after [maxDate]. *)
Definition invertedProps : @IDateRangeInputProps env :=
  @mkProps env None pattern "Invalid date" (ymd 2000 1 1) (ymd 2030 12 31) true
           "Out of range" None.

(** A default range, and a [value] whose start is [null]. *)
Definition fallbackProps : @IDateRangeInputProps env :=
  @mkProps env
           (Some (Some (@ValidDate env (ymd 2016 6 1)), Some (@ValidDate env (ymd 2016 6 30))))
           pattern "Invalid date" (ymd 2030 12 31) (ymd 2000 1 1) true "Out of range"
           (Some (None, Some (@ValidDate env (ymd 2017 2 20)))).

(** Both fields idle, with the given stored values. *)
Definition idle (startValue endValue : option (@Moment env)) : @IDateRangeInputState env :=
  @mkState env false false startValue None false endValue None.

(** The start field has just been given the focus, from the constructor's
    empty state. *)
Definition freshlyFocused (open : bool) : @IDateRangeInputState env :=
  @mkState env open true (Some moment.null) (Some "") false (Some moment.null) None.

Definition sampleObject : HtmlProps.JSObject nat :=
  [("className", 1); ("intent", 2); ("onClick", 3); ("text", 4); ("href", 5)].

(** An object with an own property named [hasOwnProperty]. *)
Definition shadowingObject : HtmlProps.JSObject nat :=
  [("hasOwnProperty", 1); ("href", 2)].

(** Numbers are not functions: calling one throws. *)
Definition callNumber (v : nat) (o : HtmlProps.JSObject nat) (key : string)
  : option bool := None.

End IsoCases.

(** ** The two-digit years of [new Date]

    [new Date(y, mo, d, h, mi, s, ms)] reads a year from 0 to 99 as 1900 + y.
    The instance below is [Iso.env] with that rule; moment itself keeps such
    years as they are. *)

Module TwoDigitYears.
Import Iso.

Definition constructDate (a : DateFields) : DateFields :=
  if within 0 (fYear a) 99
  then mkFields (fYear a + 1900) (fMonth a) (fDate a) (fHours a) (fMinutes a)
                (fSeconds a) (fMilliseconds a)
  else a.

Definition env : MomentEnv := {|
  Instant := DateFields;
  JSDate := DateFields;
  parseInstant := fun s p => if String.eqb p pattern then parseYMD s else None;
  formatInstant := fun t p => if String.eqb p pattern then formatYMD t else p;
  invalidDateText := "Invalid date";
  arrayInstant := fun a => if validFields a then Some a else None;
  instantFields := fun t => t;
  dateFields := fun d => d;
  newDate := constructDate;
  instantDay := dayKey;
  dateDay := dayKey
|}.

(** No [value] prop; the selectable interval runs from the first day of the
    year 1 to the last day of the year 99. *)
Definition earlyProps : @IDateRangeInputProps env :=
  @mkProps env None pattern "Invalid date" (ymd 99 12 31) (ymd 1 1 1) true
           "Out of range" None.

End TwoDigitYears.

(** ** Basic facts *)

(** Open every handler down to its [setState], then split on each test it
    makes. *)
Ltac unfold_handlers :=
  unfold handleStartDateInputFocus, handleEndDateInputFocus,
    handleStartDateInputBlur, handleEndDateInputBlur,
    handleStartDateInputChange, handleEndDateInputChange,
    handleGenericInputFocus, handleGenericInputBlur, handleGenericInputChange,
    handleDateRangeChange, handleClosePopover;
  cbv zeta.

Ltac split_tests :=
  repeat match goal with
    | |- context [match ?x with _ => _ end] => destruct x eqn:?
    end.

Lemma length_zero_iff (s : string) : String.length s = 0 <-> s = "".
Proof.
  destruct s as [|c s]; simpl; split; intro E; try reflexivity; discriminate E.
Qed.

Lemma nonempty_length (s : string) : s <> "" -> Nat.eqb (String.length s) 0 = false.
Proof.
  intro Hs. destruct s as [|c s]; [now elim Hs | reflexivity].
Qed.

Lemma eqb_neq_false (s t : string) : s <> t -> String.eqb s t = false.
Proof. intro Hn. now apply String.eqb_neq. Qed.

Section Facts.
Context `{MomentEnv}.
Variable props : IDateRangeInputProps.

Lemma getValue_setValue k v st : getValue k (setValue k v st) = v.
Proof. now destruct k. Qed.

Lemma getValue_setValueString k k' s st :
  getValue k (setValueString k' s st) = getValue k st.
Proof. now destruct k, k'. Qed.

Lemma getValue_setFocus k k' b st : getValue k (setFocus k' b st) = getValue k st.
Proof. now destruct k, k'. Qed.

Lemma getValueString_setValueString k s st :
  getValueString k (setValueString k s st) = s.
Proof. now destruct k. Qed.

Lemma getValueString_setValue k k' v st :
  getValueString k (setValue k' v st) = getValueString k st.
Proof. now destruct k, k'. Qed.

Lemma getValueString_setFocus k k' b st :
  getValueString k (setFocus k' b st) = getValueString k st.
Proof. now destruct k, k'. Qed.

Lemma getFocus_setFocus k b st : getFocus k (setFocus k b st) = b.
Proof. now destruct k. Qed.

Lemma getFocus_setValue k k' v st : getFocus k (setValue k' v st) = getFocus k st.
Proof. now destruct k, k'. Qed.

Lemma getFocus_setValueString k k' s st :
  getFocus k (setValueString k' s st) = getFocus k st.
Proof. now destruct k, k'. Qed.

Lemma dateIsInRange_Valid t : dateIsInRange props (Some (Valid t)) = true <-> inRange props t.
Proof.
  unfold dateIsInRange, inRange; simpl.
  rewrite andb_true_iff, !Z.leb_le. tauto.
Qed.

Lemma dateIsInRange_Valid_false t :
  dateIsInRange props (Some (Valid t)) = false <-> ~ inRange props t.
Proof.
  rewrite <- dateIsInRange_Valid. destruct (dateIsInRange props (Some (Valid t))).
  - split; [discriminate | intro Hn; now elim Hn].
  - split; [discriminate | reflexivity].
Qed.

Lemma isDateValidAndInRange_Valid t :
  isDateValidAndInRange props (Some (Valid t)) = dateIsInRange props (Some (Valid t)).
Proof. reflexivity. Qed.

Lemma isDateValidAndInRange_true v :
  isDateValidAndInRange props v = true <-> exists t, v = Some (Valid t) /\ inRange props t.
Proof.
  split.
  - destruct v as [[nf|t]|]; simpl; try discriminate.
    intro E. exists t. split; [reflexivity | now apply dateIsInRange_Valid].
  - intros [t [-> Ht]]. rewrite isDateValidAndInRange_Valid. now apply dateIsInRange_Valid.
Qed.

(** What [moment(text, format)] is, by the outcome of the parse. *)
Lemma ofText_parsed s t :
  parseInstant s (format props) = Some t ->
  moment.ofText (Some s) (format props) = Valid t.
Proof. unfold moment.ofText. now intros ->. Qed.

Lemma ofText_unparseable s :
  parseInstant s (format props) = None ->
  moment.ofText (Some s) (format props) = Invalid false.
Proof. unfold moment.ofText. now intros ->. Qed.

End Facts.

Create Rewrite HintDb slots.

#[global] Hint Rewrite @getValue_setValue @getValue_setValueString @getValue_setFocus
  @getValueString_setValueString @getValueString_setValue @getValueString_setFocus
  @getFocus_setFocus @getFocus_setValue @getFocus_setValueString : slots.

(** ** What is displayed *)

Section Display.
Context `{MomentEnv}.
Variable props : IDateRangeInputProps.

Lemma displayedText_focused b st :
  getFocus (focusKeyOf b) st = true ->
  displayedText props b st = getValueString (valueStringKeyOf b) st.
Proof. destruct b; simpl; now intros ->. Qed.

Lemma displayedText_blurred b st :
  getFocus (focusKeyOf b) st = false ->
  displayedText props b st =
    Some (getDateStringForDisplay props (getValue (valueKeyOf b) st)).
Proof. destruct b; simpl; now intros ->. Qed.

Lemma display_invalid :
  getDateStringForDisplay props (Some (Invalid false)) = invalidDateMessage props.
Proof. reflexivity. Qed.

Lemma display_out_of_range t :
  ~ inRange props t ->
  getDateStringForDisplay props (Some (Valid t)) = outOfRangeMessage props.
Proof.
  intro Hn. apply dateIsInRange_Valid_false in Hn.
  unfold getDateStringForDisplay. simpl isNull. cbv iota. simpl moment.isValid.
  simpl negb at 1. cbv iota. now rewrite Hn.
Qed.

Lemma display_in_range t :
  inRange props t ->
  getDateStringForDisplay props (Some (Valid t)) = formatInstant t (format props).
Proof.
  intro Hr. apply dateIsInRange_Valid in Hr.
  unfold getDateStringForDisplay. simpl isNull. cbv iota. simpl moment.isValid.
  simpl negb at 1. cbv iota. now rewrite Hr.
Qed.

(** C1. In every state the text shown for a boundary is its raw text while
    that boundary has the focus.  Without the focus it is computed from the
    stored value and the props alone: the empty string when the value is
    absent ([null], or a moment made from [null]), [invalidDateMessage] when
    it is an invalid moment, [outOfRangeMessage] when it is valid but its day
    lies outside the interval from [minDate] to [maxDate], and the value
    formatted under [format] otherwise. *)
Theorem displayed_text_by_focus_and_value (b : Boundary) (st : IDateRangeInputState) :
  (getFocus (focusKeyOf b) st = true ->
     displayedText props b st = getValueString (valueStringKeyOf b) st)
  /\ (getFocus (focusKeyOf b) st = false ->
      displayedText props b st =
        Some (getDateStringForDisplay props (getValue (valueKeyOf b) st)))
  /\ getDateStringForDisplay props None = ""
  /\ getDateStringForDisplay props (Some (Invalid true)) = ""
  /\ getDateStringForDisplay props (Some (Invalid false)) = invalidDateMessage props
  /\ (forall t, ~ inRange props t ->
        getDateStringForDisplay props (Some (Valid t)) = outOfRangeMessage props)
  /\ (forall t, inRange props t ->
        getDateStringForDisplay props (Some (Valid t)) = formatInstant t (format props)).
Proof.
  repeat split.
  - apply displayedText_focused.
  - apply displayedText_blurred.
  - apply display_out_of_range.
  - apply display_in_range.
Qed.

End Display.

(** ** Typing *)

Section Typing.
Context `{MomentEnv}.
Variable props : IDateRangeInputProps.

Lemma handleInputChange_generic b s st :
  handleInputChange props b s st =
    handleGenericInputChange props s (valueKeyOf b) (valueStringKeyOf b) st.
Proof. now destruct b. Qed.

Lemma change_empty b st :
  handleInputChange props b "" st =
    Done (setValueString (valueStringKeyOf b) (Some "")
            (setValue (valueKeyOf b) None st)) [].
Proof. now rewrite handleInputChange_generic. Qed.

Lemma change_in_range b s t st :
  s <> "" -> parseInstant s (format props) = Some t -> inRange props t ->
  handleInputChange props b s st =
    Done (if isUncontrolled props
          then setValueString (valueStringKeyOf b) (Some s)
                 (setValue (valueKeyOf b) (Some (Valid t)) st)
          else setValueString (valueStringKeyOf b) (Some s) st) [].
Proof.
  intros Hs Hp Hr. rewrite handleInputChange_generic.
  unfold handleGenericInputChange.
  rewrite (nonempty_length s Hs), (ofText_parsed props s t Hp).
  apply dateIsInRange_Valid in Hr. rewrite Hr. simpl.
  now destruct (isUncontrolled props).
Qed.

Lemma change_rejected b s st :
  s <> "" ->
  isDateValidAndInRange props (Some (moment.ofText (Some s) (format props))) = false ->
  handleInputChange props b s st =
    Done (setValueString (valueStringKeyOf b) (Some s) st) [].
Proof.
  intros Hs Hr. rewrite handleInputChange_generic.
  unfold handleGenericInputChange.
  rewrite (nonempty_length s Hs).
  unfold isDateValidAndInRange in Hr. cbv zeta. now rewrite Hr.
Qed.

(** The typed text is rejected when it does not parse, or parses to a day
    outside the interval. *)
Lemma rejected_iff s :
  isDateValidAndInRange props (Some (moment.ofText (Some s) (format props))) = false
  <-> parseInstant s (format props) = None
      \/ exists t, parseInstant s (format props) = Some t /\ ~ inRange props t.
Proof.
  unfold moment.ofText.
  destruct (parseInstant s (format props)) as [t|].
  - rewrite isDateValidAndInRange_Valid, dateIsInRange_Valid_false. split.
    + intro Hn. right. now exists t.
    + intros [E | [t' [E Hn]]]; [discriminate E | now injection E as ->].
  - split; [now left | reflexivity].
Qed.

(** C2. A change of the text of a boundary to a non-empty string [s]: when
    [s] parses under [format] to a day within the interval from [minDate] to
    [maxDate], the raw text becomes [s] and, with no [value] prop supplied,
    the stored value becomes the parsed date in the same transition; when [s]
    does not parse, or parses to a day outside the interval, the raw text
    becomes [s] and nothing else of the state changes, the stored value in
    particular. *)
Theorem change_nonempty_text (b : Boundary) (s : string) (st : IDateRangeInputState) :
  s <> "" ->
  (forall t, parseInstant s (format props) = Some t -> inRange props t ->
     exists st',
       handleInputChange props b s st = Done st' []
       /\ getValueString (valueStringKeyOf b) st' = Some s
       /\ (value props = None ->
           st' = setValueString (valueStringKeyOf b) (Some s)
                   (setValue (valueKeyOf b) (Some (Valid t)) st)
           /\ getValue (valueKeyOf b) st' = Some (Valid t)))
  /\ (parseInstant s (format props) = None
      \/ (exists t, parseInstant s (format props) = Some t /\ ~ inRange props t) ->
      handleInputChange props b s st =
        Done (setValueString (valueStringKeyOf b) (Some s) st) []
      /\ getValue (valueKeyOf b) (setValueString (valueStringKeyOf b) (Some s) st)
         = getValue (valueKeyOf b) st).
Proof.
  intro Hs. split.
  - intros t Hp Hr. eexists. split; [apply (change_in_range b s t st Hs Hp Hr) |].
    split.
    + destruct (isUncontrolled props); now autorewrite with slots.
    + intro Hu. unfold isUncontrolled. rewrite Hu.
      split; [reflexivity | now autorewrite with slots].
  - intro Hrej. apply rejected_iff in Hrej. split.
    + now apply change_rejected.
    + now autorewrite with slots.
Qed.

(** With a [value] prop supplied, a change to a non-empty text leaves both
    stored values as they were. *)
Lemma controlled_change_nonempty_keeps_values b s st k :
  value props <> None -> s <> "" ->
  exists st', handleInputChange props b s st = Done st' []
              /\ getValue k st' = getValue k st.
Proof.
  intros Hc Hs. rewrite handleInputChange_generic. unfold handleGenericInputChange.
  rewrite (nonempty_length s Hs).
  assert (Hu : isUncontrolled props = false).
  { unfold isUncontrolled. destruct (value props); [reflexivity | now elim Hc]. }
  rewrite Hu.
  destruct (moment.isValid _ && dateIsInRange props _);
    eexists; (split; [reflexivity | now autorewrite with slots]).
Qed.

(** The handlers follow the three-way split of the typed text. *)
Lemma change_by_parse b s st :
  handleInputChange props b s st =
    match parse props s with
    | Empty =>
        Done (setValueString (valueStringKeyOf b) (Some "")
                (setValue (valueKeyOf b) None st)) []
    | Parsed t =>
        if dateIsInRange props (Some (Valid t)) && isUncontrolled props
        then Done (setValueString (valueStringKeyOf b) (Some s)
                     (setValue (valueKeyOf b) (Some (Valid t)) st)) []
        else Done (setValueString (valueStringKeyOf b) (Some s) st) []
    | InvalidText => Done (setValueString (valueStringKeyOf b) (Some s) st) []
    end.
Proof.
  rewrite handleInputChange_generic. unfold handleGenericInputChange, parse.
  destruct (Nat.eqb (String.length s) 0); [reflexivity |].
  destruct (moment.ofText (Some s) (format props)) as [nf|t]; simpl; [reflexivity |].
  destruct (dateDay (minDate props) <=? instantDay t)%Z,
           (instantDay t <=? dateDay (maxDate props))%Z,
           (isUncontrolled props); reflexivity.
Qed.

End Typing.

(** ** Leaving a field *)

Section Blurring.
Context `{MomentEnv}.
Variable props : IDateRangeInputProps.

Lemma handleInputBlur_generic b st :
  handleInputBlur props b st =
    handleGenericInputBlur props (getValueString (valueStringKeyOf b) st)
      (valueKeyOf b) (valueStringKeyOf b) (focusKeyOf b) st.
Proof. now destruct b. Qed.

Lemma blur_null_text b st :
  getValueString (valueStringKeyOf b) st = None ->
  handleInputBlur props b st = TypeError.
Proof.
  intro E. rewrite handleInputBlur_generic, E. reflexivity.
Qed.

Lemma blur_empty b st :
  getValueString (valueStringKeyOf b) st = Some "" ->
  handleInputBlur props b st = Done (committed b moment.null st) [].
Proof.
  intro E. rewrite handleInputBlur_generic, E. reflexivity.
Qed.

Lemma blur_changed_to_invalid b st s :
  getValueString (valueStringKeyOf b) st = Some s -> s <> "" ->
  s <> getDateStringForDisplay props (startDateValue st) ->
  isDateValidAndInRange props (Some (moment.ofText (Some s) (format props))) = false ->
  handleInputBlur props b st =
    Done (if isUncontrolled props
          then committed b (moment.ofText (Some s) (format props)) st
          else setFocus (focusKeyOf b) false st) [].
Proof.
  intros E Hs Hd Hr. rewrite handleInputBlur_generic, E.
  unfold handleGenericInputBlur. cbv zeta.
  rewrite (nonempty_length s Hs), (eqb_neq_false _ _ Hd).
  rewrite <- negb_andb. unfold isDateValidAndInRange in Hr. rewrite Hr.
  simpl. now destruct (isUncontrolled props).
Qed.

Lemma blur_in_sync b st s :
  getValueString (valueStringKeyOf b) st = Some s -> s <> "" ->
  s = getDateStringForDisplay props (startDateValue st) ->
  handleInputBlur props b st = Done (setFocus (focusKeyOf b) false st) [].
Proof.
  intros E Hs Hd. rewrite handleInputBlur_generic, E.
  unfold handleGenericInputBlur. cbv zeta.
  rewrite (nonempty_length s Hs). rewrite <- Hd, String.eqb_refl.
  simpl. reflexivity.
Qed.

Lemma blur_accepted b st s :
  getValueString (valueStringKeyOf b) st = Some s -> s <> "" ->
  isDateValidAndInRange props (Some (moment.ofText (Some s) (format props))) = true ->
  handleInputBlur props b st = Done (setFocus (focusKeyOf b) false st) [].
Proof.
  intros E Hs Hr. rewrite handleInputBlur_generic, E.
  unfold handleGenericInputBlur. cbv zeta.
  rewrite (nonempty_length s Hs).
  rewrite <- negb_andb. unfold isDateValidAndInRange in Hr. rewrite Hr.
  simpl. now rewrite andb_false_r.
Qed.

(** C3. When the end field loses the focus with a non-empty text that does
    not parse, or parses to a day out of range, whether that text counts as
    changed is decided against the display string derived from the START
    value: the blur takes the changed-to-invalid branch exactly when the end
    text differs from the start value's display string, and the plain branch
    (only the focus flag cleared) when it equals it.  The end value's own
    display string plays no part. *)
Theorem end_blur_compares_with_start_display (st : IDateRangeInputState) (s : string) :
  endDateValueString st = Some s -> s <> "" ->
  isDateValidAndInRange props (Some (moment.ofText (Some s) (format props))) = false ->
  (s <> getDateStringForDisplay props (startDateValue st) ->
     handleEndDateInputBlur props st =
       Done (if isUncontrolled props
             then committed BEnd (moment.ofText (Some s) (format props)) st
             else setFocus isEndDateInputFocusedK false st) [])
  /\ (s = getDateStringForDisplay props (startDateValue st) ->
      handleEndDateInputBlur props st =
        Done (setFocus isEndDateInputFocusedK false st) []).
Proof.
  intros E Hs Hr. split; intro Hd.
  - exact (blur_changed_to_invalid BEnd st s E Hs Hd Hr).
  - exact (blur_in_sync BEnd st s E Hs Hd).
Qed.

Lemma display_after_commit b v st :
  displayedText props b (committed b v st) = Some (getDateStringForDisplay props (Some v)).
Proof.
  rewrite displayedText_blurred; unfold committed; now autorewrite with slots.
Qed.

(** X22. A boundary loses the focus with a non-empty text that differs from the
    display string the handler derives (from the start value, for either
    boundary) and that does not parse, or parses to a day out of range.  With
    no [value] prop the parsed moment, invalid or out of range as it is, is
    stored as the boundary's value, the raw text is cleared and the focus flag
    dropped, so that the field then shows the derived message
    ([invalidDateMessage] for unparseable text, [outOfRangeMessage]
    otherwise).  With a [value] prop the focus flag alone is cleared. *)
Lemma blur_out_of_sync_rejected_text (b : Boundary) (st : IDateRangeInputState)
        (s : string) :
  getValueString (valueStringKeyOf b) st = Some s -> s <> "" ->
  s <> getDateStringForDisplay props (startDateValue st) ->
  (parseInstant s (format props) = None
   \/ exists t, parseInstant s (format props) = Some t /\ ~ inRange props t) ->
  (value props = None ->
     exists st',
       handleInputBlur props b st = Done st' []
       /\ st' = committed b (moment.ofText (Some s) (format props)) st
       /\ getValue (valueKeyOf b) st' = Some (moment.ofText (Some s) (format props))
       /\ getValueString (valueStringKeyOf b) st' = None
       /\ getFocus (focusKeyOf b) st' = false
       /\ displayedText props b st' =
           Some (match parseInstant s (format props) with
                 | None => invalidDateMessage props
                 | Some _ => outOfRangeMessage props
                 end))
  /\ (value props <> None ->
      handleInputBlur props b st = Done (setFocus (focusKeyOf b) false st) []).
Proof.
  intros E Hs Hd Hrej.
  pose proof (proj2 (rejected_iff props s) Hrej) as Hr.
  pose proof (blur_changed_to_invalid b st s E Hs Hd Hr) as Hb.
  split; intro Hv.
  - assert (Hu : isUncontrolled props = true) by (unfold isUncontrolled; now rewrite Hv).
    rewrite Hu in Hb. eexists. split; [exact Hb |]. split; [reflexivity |].
    repeat split; try (unfold committed; now autorewrite with slots).
    rewrite display_after_commit. f_equal.
    destruct Hrej as [Hn | [t [Hp Hn]]].
    + rewrite (ofText_unparseable props s Hn), Hn. reflexivity.
    + rewrite (ofText_parsed props s t Hp), Hp. now apply display_out_of_range.
  - assert (Hu : isUncontrolled props = false).
    { unfold isUncontrolled. destruct (value props); [reflexivity | now elim Hv]. }
    now rewrite Hu in Hb.
Qed.

(** C7. A boundary that loses the focus with the empty text: its value
    becomes the moment made from [null], which is absent, its raw text is
    cleared, it then shows the empty string, and no callback is called;
    whether a [value] prop is supplied or not. *)
Theorem blur_empty_text_clears (b : Boundary) (st : IDateRangeInputState) :
  getValueString (valueStringKeyOf b) st = Some "" ->
  exists st',
    handleInputBlur props b st = Done st' []
    /\ st' = committed b moment.null st
    /\ getValue (valueKeyOf b) st' = Some moment.null
    /\ isNull (getValue (valueKeyOf b) st') = true
    /\ getFocus (focusKeyOf b) st' = false
    /\ displayedText props b st' = Some "".
Proof.
  intro E. eexists. split; [exact (blur_empty b st E) |]. split; [reflexivity |].
  assert (Hv : getValue (valueKeyOf b) (committed b moment.null st) = Some moment.null)
    by (unfold committed; now autorewrite with slots).
  repeat split.
  - exact Hv.
  - now rewrite Hv.
  - unfold committed; now autorewrite with slots.
  - now rewrite display_after_commit.
Qed.

Lemma blur_by_parse b s st :
  getValueString (valueStringKeyOf b) st = Some s ->
  handleInputBlur props b st =
    match parse props s with
    | Empty => Done (committed b moment.null st) []
    | InvalidText =>
        if negb (String.eqb s (getDateStringForDisplay props (startDateValue st)))
           && isUncontrolled props
        then Done (committed b (Invalid false) st) []
        else Done (setFocus (focusKeyOf b) false st) []
    | Parsed t =>
        if negb (String.eqb s (getDateStringForDisplay props (startDateValue st)))
           && negb (dateIsInRange props (Some (Valid t))) && isUncontrolled props
        then Done (committed b (Valid t) st) []
        else Done (setFocus (focusKeyOf b) false st) []
    end.
Proof.
  intro E. rewrite handleInputBlur_generic, E.
  unfold handleGenericInputBlur, parse, moment.ofText. cbv zeta.
  destruct (Nat.eqb (String.length s) 0); [reflexivity |].
  destruct (parseInstant s (format props)) as [t|];
    destruct (String.eqb s (getDateStringForDisplay props (startDateValue st)));
    simpl; try reflexivity.
  destruct (dateDay (minDate props) <=? instantDay t)%Z,
           (instantDay t <=? dateDay (maxDate props))%Z,
           (isUncontrolled props); reflexivity.
Qed.

End Blurring.

(** ** The typed text, three ways *)

Section Parsing.
Context `{MomentEnv}.
Variable props : IDateRangeInputProps.

Lemma parse_empty_iff text : parse props text = Empty <-> String.length text = 0.
Proof.
  destruct text as [|c text].
  - simpl. tauto.
  - unfold parse. rewrite nonempty_length by discriminate.
    destruct (moment.ofText _ _); simpl; split; discriminate.
Qed.

(** C8. The split of a typed text into empty, invalid and parsed puts a text
    in the empty class exactly when its length is zero.  The empty string is
    not in the invalid class; a non-empty string is in the invalid or in the
    parsed class.  Both handlers follow the split: a change clears the
    boundary, and a blur stores the absent value, exactly when the text has
    length zero. *)
Theorem empty_class_iff_zero_length (text : string) :
  (parse props text = Empty <-> String.length text = 0)
  /\ parse props "" <> InvalidText
  /\ (text <> "" ->
      parse props text = InvalidText \/ exists t, parse props text = Parsed t)
  /\ (forall b st,
        handleInputChange props b text st =
          Done (setValueString (valueStringKeyOf b) (Some "")
                  (setValue (valueKeyOf b) None st)) []
        <-> String.length text = 0)
  /\ (forall b st,
        getValueString (valueStringKeyOf b) st = Some text ->
        (handleInputBlur props b st = Done (committed b moment.null st) []
         <-> String.length text = 0)).
Proof.
  split; [apply parse_empty_iff |].
  split; [discriminate |].
  split.
  { intro Hs. unfold parse. rewrite (nonempty_length text Hs).
    destruct (moment.ofText _ _) as [nf|t]; [now left | right; now exists t]. }
  split.
  - intros b st. split.
    + intro E. rewrite change_by_parse in E.
      destruct (parse props text) as [| |t] eqn:P.
      * now apply parse_empty_iff.
      * injection E as E. apply (f_equal (getValueString (valueStringKeyOf b))) in E.
        autorewrite with slots in E. injection E as ->. reflexivity.
      * destruct (_ && _); injection E as E;
          apply (f_equal (getValueString (valueStringKeyOf b))) in E;
          autorewrite with slots in E; injection E as ->; reflexivity.
    + intro L. apply length_zero_iff in L. subst text. apply change_empty.
  - intros b st Ht. split.
    + intro E. rewrite (blur_by_parse props b text st Ht) in E.
      destruct (parse props text) as [| |t] eqn:P.
      * now apply parse_empty_iff.
      * destruct (_ && _); injection E as E.
        -- apply (f_equal (getValue (valueKeyOf b))) in E. unfold committed in E.
           autorewrite with slots in E. discriminate E.
        -- apply (f_equal (getValueString (valueStringKeyOf b))) in E.
           unfold committed in E. autorewrite with slots in E. congruence.
      * destruct (_ && _); injection E as E.
        -- apply (f_equal (getValue (valueKeyOf b))) in E. unfold committed in E.
           autorewrite with slots in E. discriminate E.
        -- apply (f_equal (getValueString (valueStringKeyOf b))) in E.
           unfold committed in E. autorewrite with slots in E. congruence.
    + intro L. apply length_zero_iff in L. subst text. now apply blur_empty.
Qed.

End Parsing.

(** ** The calendar picker *)

Section Picker.
Context `{MomentEnv}.
Variable props : IDateRangeInputProps.

(** A picked end is absent as a stored value exactly when it is [null]. *)
Lemma isNull_fromDateToMoment (d : option NativeDate) :
  isNull (Some (fromDateToMoment d)) = true <-> d = None.
Proof.
  destruct d as [[|d]|]; simpl.
  - split; discriminate.
  - unfold moment.ofArray. destruct (arrayInstant (dateFields d)); split; discriminate.
  - tauto.
Qed.

(** C9. A calendar pick of the range [(d1, d2)] is one transition that
    overwrites both stored values with the picked ends, sets both raw texts
    from them (the new value formatted under [format] when the end is present,
    the empty string when it is [null]), calls nothing, and leaves the
    popover's open flag and both focus flags as they were. *)
Theorem calendar_pick_overwrites_both (d1 d2 : option NativeDate)
        (st : IDateRangeInputState) :
  exists st',
    handleDateRangeChange props (d1, d2) st = Done st' []
    /\ startDateValue st' = Some (fromDateToMoment d1)
    /\ endDateValue st' = Some (fromDateToMoment d2)
    /\ startDateValueString st' =
        Some (if isNull (startDateValue st') then ""
              else moment.format (fromDateToMoment d1) (format props))
    /\ endDateValueString st' =
        Some (if isNull (endDateValue st') then ""
              else moment.format (fromDateToMoment d2) (format props))
    /\ (isNull (startDateValue st') = true <-> d1 = None)
    /\ (isNull (endDateValue st') = true <-> d2 = None)
    /\ isOpen st' = isOpen st
    /\ isStartDateInputFocused st' = isStartDateInputFocused st
    /\ isEndDateInputFocused st' = isEndDateInputFocused st.
Proof.
  eexists. split; [reflexivity |]. cbn [startDateValue endDateValue
    startDateValueString endDateValueString isOpen isStartDateInputFocused
    isEndDateInputFocused setValue setValueString].
  split; [reflexivity |]. split; [reflexivity |].
  split.
  { destruct d1 as [d|]; [| reflexivity].
    destruct (isNull (Some (fromDateToMoment (Some d)))) eqn:E; [| reflexivity].
    apply isNull_fromDateToMoment in E. discriminate E. }
  split.
  { destruct d2 as [d|]; [| reflexivity].
    destruct (isNull (Some (fromDateToMoment (Some d)))) eqn:E; [| reflexivity].
    apply isNull_fromDateToMoment in E. discriminate E. }
  split; [apply isNull_fromDateToMoment |].
  split; [apply isNull_fromDateToMoment |].
  repeat split.
Qed.

Lemma pickerDate_getValue b st :
  pickerDate props b st =
    if isDateValidAndInRange props (getValue (valueKeyOf b) st)
    then fromMomentToDate (getValue (valueKeyOf b) st) else None.
Proof. now destruct b. Qed.

(** X25. In every state, each end of the range handed to the picker is
    [null], or it is the [Date] that [new Date] builds from the fields of a
    stored value that is a valid moment whose day lies in the closed interval
    from [minDate] to [maxDate]; it is never the invalid date.  Where
    [new Date] gives a date on the day of the moment it is built from, the day
    of the date handed over lies in the interval as well. *)
Theorem picker_range_valid_in_range_or_null (b : Boundary) (st : IDateRangeInputState) :
  pickerDate props b st = None
  \/ exists t,
       getValue (valueKeyOf b) st = Some (Valid t)
       /\ (dateDay (minDate props) <= instantDay t <= dateDay (maxDate props))%Z
       /\ pickerDate props b st = Some (ValidDate (newDate (instantFields t)))
       /\ (dateDay (newDate (instantFields t)) = instantDay t ->
           (dateDay (minDate props) <= dateDay (newDate (instantFields t))
            <= dateDay (maxDate props))%Z).
Proof.
  rewrite pickerDate_getValue.
  destruct (isDateValidAndInRange props (getValue (valueKeyOf b) st)) eqn:E.
  - right. apply isDateValidAndInRange_true in E. destruct E as [t [-> Ht]].
    exists t. split; [reflexivity |]. split; [exact Ht |]. split; [reflexivity |].
    intros ->. exact Ht.
  - now left.
Qed.

End Picker.

(** ** Callbacks and reachable states *)

Section Reachability.
Context `{MomentEnv}.
Variable props : IDateRangeInputProps.

(** No handler calls [onChange] or [onError]. *)
Lemma dispatch_calls_nothing e st st' calls :
  dispatch props e st = Done st' calls -> calls = [].
Proof.
  destruct e; simpl;
    unfold_handlers;
    split_tests;
    intro E; try discriminate E; now injection E.
Qed.

Lemma run_calls_nothing es : forall st st' calls,
  run props es st = Done st' calls -> calls = [].
Proof.
  induction es as [|e es IH]; simpl; intros st st' calls E.
  - now injection E.
  - destruct (dispatch props e st) as [st1 c1|] eqn:D; [| discriminate E].
    destruct (run props es st1) as [st2 c2|] eqn:R; [| discriminate E].
    injection E as _ <-.
    now rewrite (dispatch_calls_nothing _ _ _ _ D), (IH _ _ _ R).
Qed.

Lemma dispatch_keeps_focusedTextPresent e st st' calls :
  focusedTextPresent st -> dispatch props e st = Done st' calls ->
  focusedTextPresent st'.
Proof.
  unfold focusedTextPresent. intros [Hs He].
  destruct e; simpl;
    unfold_handlers;
    split_tests;
    intro E; try discriminate E; injection E as <- _; simpl;
    split; intro F; try discriminate; try discriminate F; auto; congruence.
Qed.

Lemma reachable_focusedTextPresent st : reachable props st -> focusedTextPresent st.
Proof.
  induction 1 as [|e st st' calls _ IH D].
  - unfold initialState. destruct getDefaultDateRange. split; discriminate.
  - exact (dispatch_keeps_focusedTextPresent e st st' calls IH D).
Qed.

(** In a reachable state a blur of the focused boundary returns. *)
Lemma blur_of_focused_returns b st :
  reachable props st -> getFocus (focusKeyOf b) st = true ->
  exists st', handleInputBlur props b st = Done st' [].
Proof.
  intros R F. apply reachable_focusedTextPresent in R. destruct R as [Rs Re].
  assert (exists s, getValueString (valueStringKeyOf b) st = Some s) as [s Hs].
  { destruct b; simpl in *;
      [destruct (startDateValueString st) as [s|] | destruct (endDateValueString st) as [s|]];
      try (now exists s); [now elim (Rs F) | now elim (Re F)]. }
  rewrite (blur_by_parse props b s st Hs).
  destruct (parse props s); repeat match goal with
    | |- context [if ?c then _ else _] => destruct c
    end; eexists; reflexivity.
Qed.

End Reachability.

(** ** The handlers at work on YYYY-MM-DD *)

Section Examples.
Import Iso.

Example parse_leap_day : parseYMD "2016-02-29" = Some (ymd 2016 2 29).
Proof. reflexivity. Qed.

Example parse_no_leap_day : parseYMD "2017-02-29" = None.
Proof. reflexivity. Qed.

Example format_pads : formatYMD (ymd 2017 3 1) = "2017-03-01".
Proof. reflexivity. Qed.

Example constructor_seeds_from_value :
  startDateValue (initialState controlledProps) = Some jan15
  /\ endDateValue (initialState controlledProps) = Some feb20.
Proof. split; reflexivity. Qed.

Example blur_before_any_focus_throws :
  handleStartDateInputBlur uncontrolledProps (initialState uncontrolledProps) = TypeError.
Proof. reflexivity. Qed.

Example focus_seeds_text :
  run controlledProps [StartFocus] (initialState controlledProps)
  = Done (startTyping "2017-01-15") [].
Proof. reflexivity. Qed.

(** C4. With a [value] prop supplied (controlled), the start value seeded
    from it is the 15th of January 2017; the user focuses the start field and
    deletes its text.  The change to the empty string overwrites the stored
    start value with [null]: the empty branch of [handleGenericInputChange]
    writes the value without looking at [this.props.value], which the
    parsed-and-in-range branch of the same handler does look at. *)
Theorem controlled_empty_change_overwrites_value :
  value controlledProps <> None
  /\ run controlledProps [StartFocus] (initialState controlledProps)
     = Done (startTyping "2017-01-15") []
  /\ startDateValue (startTyping "2017-01-15") = Some jan15
  /\ exists st',
       handleInputChange controlledProps BStart "" (startTyping "2017-01-15")
       = Done st' []
       /\ startDateValue st' = None
       /\ startDateValue st' <> startDateValue (startTyping "2017-01-15").
Proof.
  split; [discriminate |]. split; [reflexivity |]. split; [reflexivity |].
  eexists. split; [reflexivity |]. split; [reflexivity | discriminate].
Qed.

(** C5. With no [value] prop, the user focuses the start field, types a text
    that does not parse (resp. one that parses to a day before [minDate]) and
    leaves the field.  The blur stores the invalid (resp. out-of-range) moment
    and the field shows the error message, but the list of callback calls of
    the whole run is empty: [onError] is not called, the places where it
    would be are TODO comments. *)
Theorem blur_of_rejected_text_calls_nothing :
  (exists st',
     run uncontrolledProps [StartFocus; StartChange "not-a-date"; StartBlur]
         (initialState uncontrolledProps) = Done st' []
     /\ startDateValue st' = Some (Invalid false)
     /\ displayedText uncontrolledProps BStart st' = Some "Invalid date")
  /\ (exists st',
        run uncontrolledProps [StartFocus; StartChange "1999-12-31"; StartBlur]
            (initialState uncontrolledProps) = Done st' []
        /\ startDateValue st' = Some (@Valid env (ymd 1999 12 31))
        /\ displayedText uncontrolledProps BStart st' = Some "Out of range").
Proof.
  split; eexists; (split; [reflexivity |]); split; reflexivity.
Qed.

(** C6. With no [value] prop, the user leaves the start field on a text
    that does not parse, so the start field shows the invalid-date message;
    then types the 20th of February 2017 into the end field, replaces it by
    the words of that message and leaves the field.  The end text has changed
    from the end field's display string and does not parse, yet the blur
    stores nothing: the end value is still the 20th of February, the raw text
    is kept, and the field shows the old date again.  The handler took the
    text as unchanged because it compares it with the display string of the
    start value. *)
Theorem end_blur_in_sync_with_start_keeps_value :
  value uncontrolledProps = None
  /\ run uncontrolledProps
         [StartFocus; StartChange "x"; StartBlur;
          EndFocus; EndChange "2017-02-20"; EndChange "Invalid date"]
         (initialState uncontrolledProps)
     = Done (endTyping (Invalid false) feb20 "Invalid date") []
  /\ "Invalid date"
     <> getDateStringForDisplay uncontrolledProps
          (endDateValue (endTyping (Invalid false) feb20 "Invalid date"))
  /\ @parseInstant env "Invalid date" (format uncontrolledProps) = None
  /\ exists st',
       handleInputBlur uncontrolledProps BEnd
         (endTyping (Invalid false) feb20 "Invalid date") = Done st' []
       /\ endDateValue st' = Some feb20
       /\ endDateValue st'
          <> Some (@moment.ofText env (Some "Invalid date") (format uncontrolledProps))
       /\ endDateValueString st' = Some "Invalid date"
       /\ displayedText uncontrolledProps BEnd st' = Some "2017-02-20".
Proof.
  split; [reflexivity |]. split; [reflexivity |]. split; [discriminate |].
  split; [reflexivity |].
  eexists. split; [reflexivity |].
  split; [reflexivity |]. split; [discriminate |]. split; reflexivity.
Qed.

End Examples.

(** ** The statements at concrete states *)

Section Instances.
Import Iso.

(** While the start field has the focus it shows what is being typed; the
    idle end field shows its stored value, formatted. *)
Lemma displayed_text_at_startTyping :
  displayedText uncontrolledProps BStart (startTyping "2017-0") = Some "2017-0"
  /\ displayedText uncontrolledProps BEnd (startTyping "2017-0") = Some "2017-02-20".
Proof.
  split.
  - exact (proj1 (displayed_text_by_focus_and_value uncontrolledProps BStart
                    (startTyping "2017-0")) eq_refl).
  - exact (proj1 (proj2 (displayed_text_by_focus_and_value uncontrolledProps BEnd
                           (startTyping "2017-0"))) eq_refl).
Defined.

(** Typing the last digit of an in-range date stores it at once. *)
Lemma change_nonempty_text_at_startTyping :
  exists st',
    handleInputChange uncontrolledProps BStart "2017-03-01" (startTyping "2017-03-0")
    = Done st' []
    /\ getValueString startDateValueStringK st' = Some "2017-03-01"
    /\ (value uncontrolledProps = None ->
        st' = setValueString startDateValueStringK (Some "2017-03-01")
                (setValue startDateValueK (Some (@Valid env (ymd 2017 3 1)))
                   (startTyping "2017-03-0"))
        /\ getValue startDateValueK st' = Some (@Valid env (ymd 2017 3 1))).
Proof.
  refine (proj1 (change_nonempty_text uncontrolledProps BStart "2017-03-01"
                   (startTyping "2017-03-0") _) (ymd 2017 3 1) eq_refl _).
  - discriminate.
  - vm_compute. split; discriminate.
Defined.

(** The end field holds the text of its own display string, yet the blur
    treats it as changed, because the start field displays something else;
    and the end field holds a text that differs from its own display string,
    yet the blur treats it as unchanged, because the start field displays the
    same text. *)
Lemma end_blur_compares_with_start_display_at_endTyping :
  (getDateStringForDisplay uncontrolledProps
     (endDateValue (endTyping jan15 (Invalid false) "Invalid date")) = "Invalid date"
   /\ handleEndDateInputBlur uncontrolledProps
        (endTyping jan15 (Invalid false) "Invalid date")
      = Done (committed BEnd (Invalid false)
                (endTyping jan15 (Invalid false) "Invalid date")) [])
  /\ (getDateStringForDisplay uncontrolledProps
        (endDateValue (endTyping (Invalid false) feb20 "Invalid date")) = "2017-02-20"
      /\ handleEndDateInputBlur uncontrolledProps
           (endTyping (Invalid false) feb20 "Invalid date")
         = Done (setFocus isEndDateInputFocusedK false
                   (endTyping (Invalid false) feb20 "Invalid date")) []).
Proof.
  split; (split; [reflexivity |]).
  - refine (proj1 (end_blur_compares_with_start_display uncontrolledProps
                     (endTyping jan15 (Invalid false) "Invalid date") "Invalid date"
                     eq_refl _ eq_refl) _); discriminate.
  - refine (proj2 (end_blur_compares_with_start_display uncontrolledProps
                     (endTyping (Invalid false) feb20 "Invalid date") "Invalid date"
                     eq_refl _ eq_refl) eq_refl); discriminate.
Defined.

(** Leaving the start field on an unparseable text stores the invalid moment
    and the field falls back to the invalid-date message. *)
Lemma blur_out_of_sync_rejected_text_at_startTyping :
  exists st',
    handleInputBlur uncontrolledProps BStart (startTyping "not-a-date") = Done st' []
    /\ st' = committed BStart (Invalid false) (startTyping "not-a-date")
    /\ getValue startDateValueK st' = Some (Invalid false)
    /\ getValueString startDateValueStringK st' = None
    /\ getFocus isStartDateInputFocusedK st' = false
    /\ displayedText uncontrolledProps BStart st' = Some "Invalid date".
Proof.
  refine (proj1 (blur_out_of_sync_rejected_text uncontrolledProps BStart
                   (startTyping "not-a-date") "not-a-date" eq_refl _ _ _) eq_refl).
  - discriminate.
  - discriminate.
  - left. reflexivity.
Defined.

(** Leaving the start field empty clears its value, with or without a
    [value] prop. *)
Lemma blur_empty_text_clears_at_startTyping :
  (exists st',
     handleInputBlur uncontrolledProps BStart (startTyping "") = Done st' []
     /\ st' = committed BStart moment.null (startTyping "")
     /\ getValue startDateValueK st' = Some moment.null
     /\ isNull (getValue startDateValueK st') = true
     /\ getFocus isStartDateInputFocusedK st' = false
     /\ displayedText uncontrolledProps BStart st' = Some "")
  /\ (exists st',
        handleInputBlur controlledProps BStart (startTyping "") = Done st' []
        /\ st' = committed BStart moment.null (startTyping "")
        /\ getValue startDateValueK st' = Some moment.null
        /\ isNull (getValue startDateValueK st') = true
        /\ getFocus isStartDateInputFocusedK st' = false
        /\ displayedText controlledProps BStart st' = Some "").
Proof.
  split.
  - exact (blur_empty_text_clears uncontrolledProps BStart (startTyping "") eq_refl).
  - exact (blur_empty_text_clears controlledProps BStart (startTyping "") eq_refl).
Defined.

(** The picker is handed the stored start date, and nothing for an end value
    that lies before [minDate]. *)
Lemma picker_range_at_endTyping :
  pickerDate uncontrolledProps BStart
    (endTyping jan15 (@Valid env (ymd 1999 12 31)) "1999-12-31")
  = Some (@ValidDate env (ymd 2017 1 15))
  /\ pickerDate uncontrolledProps BEnd
       (endTyping jan15 (@Valid env (ymd 1999 12 31)) "1999-12-31")
     = None.
Proof.
  split.
  - destruct (picker_range_valid_in_range_or_null uncontrolledProps BStart
                (endTyping jan15 (@Valid env (ymd 1999 12 31)) "1999-12-31"))
      as [E | [t [V [_ [E _]]]]]; [discriminate E |].
    simpl in V. unfold jan15 in V. injection V as <-. exact E.
  - destruct (picker_range_valid_in_range_or_null uncontrolledProps BEnd
                (endTyping jan15 (@Valid env (ymd 1999 12 31)) "1999-12-31"))
      as [E | [t [V [[R _] _]]]]; [exact E |].
    simpl in V. injection V as <-. elim R. reflexivity.
Defined.

(** A pick of the 15th of January with no end date. *)
Lemma calendar_pick_at_startTyping :
  exists st',
    handleDateRangeChange uncontrolledProps
      (Some (@ValidDate env (ymd 2017 1 15)), None) (startTyping "x") = Done st' []
    /\ startDateValue st' = Some jan15
    /\ endDateValue st' = Some moment.null
    /\ startDateValueString st' = Some "2017-01-15"
    /\ endDateValueString st' = Some ""
    /\ isOpen st' = true.
Proof.
  destruct (calendar_pick_overwrites_both uncontrolledProps
              (Some (@ValidDate env (ymd 2017 1 15))) None (startTyping "x"))
    as [st' [E [V1 [V2 [S1 [S2 [_ [_ [O _]]]]]]]]].
  exists st'. split; [exact E |].
  split; [exact V1 |]. split; [exact V2 |].
  split; [rewrite S1, V1; reflexivity |].
  split; [rewrite S2, V2; reflexivity |].
  exact O.
Defined.

End Instances.

(** ** Filtering props: what is removed and what is kept *)

Section HtmlPropsFacts.
Import HtmlProps.
Variable V : Type.
Variable shallowClone : JSObject V -> JSObject V.
Variable callMethod : V -> JSObject V -> string -> option bool.

Lemma delete_absent (o : JSObject V) key :
  hasOwn V o key = false -> delete V o key = o.
Proof.
  unfold hasOwn, delete. induction o as [|p o IH]; simpl; [reflexivity |].
  intro E. apply orb_false_iff in E. destruct E as [E1 E2].
  rewrite E1. simpl. now rewrite IH.
Qed.

Lemma listed_app l1 l2 key : listed (l1 ++ l2)%list key = listed l1 key || listed l2 key.
Proof. unfold listed. apply existsb_app. Qed.

Lemma listed_twice l key : listed (l ++ l)%list key = listed l key.
Proof. rewrite listed_app. apply orb_diag. Qed.

Lemma getOwn_filter (f : string -> bool) (o : JSObject V) key :
  getOwn V (filter (fun p => f (fst p)) o) key = if f key then getOwn V o key else None.
Proof.
  unfold getOwn. induction o as [|p o IH]; simpl.
  - now destruct (f key).
  - destruct (String.eqb (fst p) key) eqn:E.
    + apply String.eqb_eq in E. subst key.
      destruct (f (fst p)); simpl; [now rewrite String.eqb_refl | exact IH].
    + destruct (f (fst p)); simpl; [now rewrite E | exact IH].
Qed.

Lemma getOwn_delete_absent (o : JSObject V) key key' :
  getOwn V o key' = None -> getOwn V (delete V o key) key' = None.
Proof.
  intro E. unfold delete.
  rewrite (getOwn_filter (fun k => negb (String.eqb k key))).
  now destruct (negb (String.eqb key' key)).
Qed.

Lemma fold_Threw (l : list string) : fold_left (reduceStep V callMethod) l Threw = Threw.
Proof. induction l as [|k l IH]; simpl; [reflexivity | exact IH]. Qed.

(** Without an own [hasOwnProperty] the reduction returns, and what it
    returns is the object with the listed properties filtered out. *)
Lemma fold_reduce (l : list string) : forall o : JSObject V,
  getOwn V o "hasOwnProperty" = None ->
  fold_left (reduceStep V callMethod) l (Returned o)
  = Returned (filter (fun p => negb (listed l (fst p))) o).
Proof.
  induction l as [|k l IH]; intros o Ho; simpl.
  - f_equal. induction o as [|p o IHo]; simpl; [reflexivity |].
    f_equal. apply IHo. unfold getOwn in *. simpl in Ho.
    destruct (String.eqb (fst p) "hasOwnProperty"); [discriminate Ho | exact Ho].
  - unfold hasOwnPropertyCall. rewrite Ho.
    assert (E : (if hasOwn V o k then Returned (delete V o k) else Returned o)
                = Returned (delete V o k)).
    { destruct (hasOwn V o k) eqn:Hk; [reflexivity |].
      now rewrite (delete_absent o k Hk). }
    rewrite E, (IH _ (getOwn_delete_absent o k _ Ho)). f_equal. clear.
    unfold delete. induction o as [|p o IHo]; simpl; [reflexivity |].
    rewrite (String.eqb_sym (fst p) k).
    destruct (String.eqb k (fst p)); simpl; [exact IHo |].
    destruct (listed l (fst p)); simpl; [exact IHo | now rewrite IHo].
Qed.

(** The list a call reduces over lists the keys of [blacklist]. *)
Lemma removeNonHTMLProps_reduces props invalidProps shouldMerge :
  exists l,
    removeNonHTMLProps V shallowClone callMethod props invalidProps shouldMerge
    = fold_left (reduceStep V callMethod) l (Returned (shallowClone props))
    /\ (forall key, listed l key = listed (blacklist invalidProps shouldMerge) key)
    /\ (blacklist invalidProps shouldMerge <> [] -> l <> []).
Proof.
  unfold removeNonHTMLProps.
  destruct invalidProps as [l0|], shouldMerge as [[|]|]; simpl blacklist;
    eexists; (split; [reflexivity |]); split; try (intro key; reflexivity);
    try (intro Hn; exact Hn).
  - intro key. apply listed_twice.
  - discriminate.
Qed.

Lemma removeNonHTMLProps_filter props invalidProps shouldMerge :
  getOwn V (shallowClone props) "hasOwnProperty" = None ->
  removeNonHTMLProps V shallowClone callMethod props invalidProps shouldMerge
  = Returned (filter (fun p => negb (listed (blacklist invalidProps shouldMerge) (fst p)))
                     (shallowClone props)).
Proof.
  intro Ho.
  destruct (removeNonHTMLProps_reduces props invalidProps shouldMerge) as [l [E [Hl _]]].
  rewrite E, (fold_reduce l _ Ho). f_equal.
  apply filter_ext. intro p. now rewrite Hl.
Qed.

(** X1. When the clone has no own property named [hasOwnProperty],
    [removeNonHTMLProps] returns, and in its result a key on the list in
    force (the given list, with the default blacklist appended when
    [shouldMerge] is true; the default blacklist when no list is given) is
    not an own property, whether the clone had it or not, while every other
    key is an own property exactly when it is one of the clone, with the same
    value. *)
Theorem removeNonHTMLProps_lookup (props : JSObject V) (invalidProps : option (list string))
        (shouldMerge : option bool) :
  getOwn V (shallowClone props) "hasOwnProperty" = None ->
  exists o,
    removeNonHTMLProps V shallowClone callMethod props invalidProps shouldMerge
    = Returned o
    /\ forall key,
         getOwn V o key
         = if listed (blacklist invalidProps shouldMerge) key then None
           else getOwn V (shallowClone props) key.
Proof.
  intro Ho. eexists. split; [apply (removeNonHTMLProps_filter _ _ _ Ho) |].
  intro key.
  rewrite (getOwn_filter (fun k => negb (listed (blacklist invalidProps shouldMerge) k))).
  now destruct (listed (blacklist invalidProps shouldMerge) key).
Qed.

(** X2. When the clone has no own property named [hasOwnProperty], the own
    properties that remain keep the order they have in the clone: the own
    keys of the result are the own keys of the clone with the listed ones
    struck out, and nothing is added. *)
Theorem removeNonHTMLProps_keeps_order (props : JSObject V)
        (invalidProps : option (list string)) (shouldMerge : option bool) :
  getOwn V (shallowClone props) "hasOwnProperty" = None ->
  exists o,
    removeNonHTMLProps V shallowClone callMethod props invalidProps shouldMerge
    = Returned o
    /\ keys V o
       = filter (fun k => negb (listed (blacklist invalidProps shouldMerge) k))
                (keys V (shallowClone props)).
Proof.
  intro Ho. eexists. split; [apply (removeNonHTMLProps_filter _ _ _ Ho) |].
  unfold keys. clear Ho.
  induction (shallowClone props) as [|p o IH]; simpl; [reflexivity |].
  destruct (listed (blacklist invalidProps shouldMerge) (fst p)); simpl;
    [exact IH | now rewrite IH].
Qed.

(** X3. When the clone has no own property named [hasOwnProperty], a list of
    one's own replaces the default blacklist unless [shouldMerge] is true: a
    key of the default blacklist that is not on the given list is an own
    property of the result, with the clone's value, exactly when it is one of
    the clone, in the call without [shouldMerge] and in the call with it
    false, and it is not an own property of the result with [shouldMerge]
    true; and merging the default blacklist with itself returns what the
    default call returns. *)
Theorem own_list_replaces_default_blacklist (props : JSObject V) (l : list string)
        (key : string) :
  getOwn V (shallowClone props) "hasOwnProperty" = None ->
  listed INVALID_PROPS key = true -> listed l key = false ->
  (exists o, removeNonHTMLProps V shallowClone callMethod props (Some l) None = Returned o
             /\ getOwn V o key = getOwn V (shallowClone props) key)
  /\ (exists o, removeNonHTMLProps V shallowClone callMethod props (Some l) (Some false)
                = Returned o
                /\ getOwn V o key = getOwn V (shallowClone props) key)
  /\ (exists o, removeNonHTMLProps V shallowClone callMethod props (Some l) (Some true)
                = Returned o
                /\ getOwn V o key = None)
  /\ removeNonHTMLProps V shallowClone callMethod props None (Some true)
     = removeNonHTMLProps V shallowClone callMethod props None None.
Proof.
  intros Ho Hd Hl.
  rewrite !(removeNonHTMLProps_filter _ _ _ Ho). simpl blacklist.
  repeat split; try (eexists; split; [reflexivity |]);
    rewrite ?(getOwn_filter (fun k => negb (listed _ k))), ?listed_app, ?Hl, ?Hd;
    reflexivity.
Qed.

(** X24. When the clone has an own property named [hasOwnProperty] whose
    value cannot be called, [prev.hasOwnProperty(curr)] throws in the first
    round: the call throws whenever the list in force is not empty, and
    returns the clone as it is for an empty list without [shouldMerge]. *)
Theorem removeNonHTMLProps_throws_on_shadowed_method (props : JSObject V)
        (invalidProps : option (list string)) (shouldMerge : option bool) (v : V) :
  getOwn V (shallowClone props) "hasOwnProperty" = Some v ->
  (forall o key, callMethod v o key = None) ->
  (blacklist invalidProps shouldMerge <> [] ->
   removeNonHTMLProps V shallowClone callMethod props invalidProps shouldMerge = Threw)
  /\ removeNonHTMLProps V shallowClone callMethod props (Some []) None
     = Returned (shallowClone props).
Proof.
  intros Ho Hc. split; [| reflexivity].
  intro Hn.
  destruct (removeNonHTMLProps_reduces props invalidProps shouldMerge) as [l [E [_ Hl]]].
  rewrite E. specialize (Hl Hn). destruct l as [|k l]; [now elim Hl |].
  simpl. unfold hasOwnPropertyCall. rewrite Ho, Hc. apply fold_Threw.
Qed.

End HtmlPropsFacts.

(** ** The handlers in sequence *)

Section Sequences.
Context `{MomentEnv}.
Variable props : IDateRangeInputProps.

Lemma getValue_setIsOpen k b st : getValue k (setIsOpen b st) = getValue k st.
Proof. now destruct k. Qed.

Lemma getValueString_setIsOpen k b st :
  getValueString k (setIsOpen b st) = getValueString k st.
Proof. now destruct k. Qed.

Lemma getFocus_setIsOpen k b st : getFocus k (setIsOpen b st) = getFocus k st.
Proof. now destruct k. Qed.

Lemma dispatch_focusOf b st : dispatch props (focusOf b) st = handleInputFocus props b st.
Proof. now destruct b. Qed.

Lemma dispatch_blurOf b st : dispatch props (blurOf b) st = handleInputBlur props b st.
Proof. now destruct b. Qed.

Lemma dispatch_changeOf b s st :
  dispatch props (changeOf b s) st = handleInputChange props b s st.
Proof. now destruct b. Qed.

Lemma run_cons e es st st1 :
  dispatch props e st = Done st1 [] -> run props (e :: es) st = run props es st1.
Proof.
  intro D. simpl. rewrite D. now destruct (run props es st1).
Qed.

Lemma seedText_eq v :
  (if isNull v then ""
   else match v with
        | Some m => moment.format m (format props)
        | None => ""
        end) = seedText props v.
Proof.
  destruct v as [m|]; simpl; [| reflexivity].
  now destruct (moment.nullInput m).
Qed.

(** The state a focus leaves. *)
Lemma focus_result b st :
  handleInputFocus props b st =
    Done (if openOnFocus props
          then setIsOpen true
                 (setValueString (valueStringKeyOf b)
                    (Some (seedText props (getValue (valueKeyOf b) st)))
                    (setFocus (focusKeyOf b) true st))
          else setValueString (valueStringKeyOf b)
                 (Some (seedText props (getValue (valueKeyOf b) st)))
                 (setFocus (focusKeyOf b) true st)) [].
Proof.
  destruct b; simpl;
    unfold handleStartDateInputFocus, handleEndDateInputFocus, handleGenericInputFocus;
    cbv zeta; rewrite seedText_eq; now destruct (openOnFocus props).
Qed.

Lemma focus_slots b st :
  exists st',
    handleInputFocus props b st = Done st' []
    /\ getFocus (focusKeyOf b) st' = true
    /\ getValueString (valueStringKeyOf b) st'
       = Some (seedText props (getValue (valueKeyOf b) st))
    /\ (forall k, getValue k st' = getValue k st).
Proof.
  eexists. split; [apply focus_result |].
  destruct (openOnFocus props); repeat split; intros;
    now rewrite ?getValue_setIsOpen, ?getValueString_setIsOpen, ?getFocus_setIsOpen;
      autorewrite with slots.
Qed.

End Sequences.

#[global] Hint Rewrite @getValue_setIsOpen @getValueString_setIsOpen @getFocus_setIsOpen
  : slots.

(** ** What a user sees along the usual paths *)

Section UserPaths.
Context `{MomentEnv}.
Variable props : IDateRangeInputProps.

Lemma seedText_absent v : isNull v = true -> seedText props v = "".
Proof.
  destruct v as [m|]; simpl; [| reflexivity]. now intros ->.
Qed.

Lemma display_absent v : isNull v = true -> getDateStringForDisplay props v = "".
Proof. unfold getDateStringForDisplay. now intros ->. Qed.


Lemma isUncontrolled_false : value props <> None -> isUncontrolled props = false.
Proof.
  unfold isUncontrolled. destruct (value props); [reflexivity | intro Hn; now elim Hn].
Qed.

Lemma run_two e1 e2 st st1 st2 :
  dispatch props e1 st = Done st1 [] -> dispatch props e2 st1 = Done st2 [] ->
  run props [e1; e2] st = Done st2 [].
Proof.
  intros D1 D2. rewrite (run_cons props e1 _ st st1 D1).
  rewrite (run_cons props e2 _ st1 st2 D2). reflexivity.
Qed.

Lemma run_three e1 e2 e3 st st1 st2 st3 :
  dispatch props e1 st = Done st1 [] -> dispatch props e2 st1 = Done st2 [] ->
  dispatch props e3 st2 = Done st3 [] ->
  run props [e1; e2; e3] st = Done st3 [].
Proof.
  intros D1 D2 D3. rewrite (run_cons props e1 _ st st1 D1).
  exact (run_two e2 e3 st1 st2 st3 D2 D3).
Qed.

(** X4. Giving a field the focus shows the text the field is seeded with,
    and stores nothing: the empty string for an absent value, moment's own
    text for an invalid moment (not the configured [invalidDateMessage]), and
    the formatted date for a valid one, in range or not (so the out-of-range
    message gives way to the date).  The popover is open afterwards if it was,
    or if [openOnFocus] is set. *)
Theorem focus_shows_seed_text (b : Boundary) (st : IDateRangeInputState) :
  (exists st',
     handleInputFocus props b st = Done st' []
     /\ getFocus (focusKeyOf b) st' = true
     /\ displayedText props b st' = Some (seedText props (getValue (valueKeyOf b) st))
     /\ (forall k, getValue k st' = getValue k st)
     /\ isOpen st' = isOpen st || openOnFocus props)
  /\ seedText props None = ""
  /\ seedText props (Some (Invalid true)) = ""
  /\ seedText props (Some (Invalid false)) = invalidDateText
  /\ (forall t, seedText props (Some (Valid t)) = formatInstant t (format props)).
Proof.
  split; [| repeat split].
  eexists. split; [apply focus_result |].
  destruct (openOnFocus props).
  - split; [now autorewrite with slots |].
    split; [rewrite displayedText_focused; now autorewrite with slots |].
    split; [intro k; now autorewrite with slots |].
    rewrite orb_true_r. now destruct b.
  - split; [now autorewrite with slots |].
    split; [rewrite displayedText_focused; now autorewrite with slots |].
    split; [intro k; now autorewrite with slots |].
    rewrite orb_false_r. now destruct b.
Qed.

(** X5. An idle field whose value is absent, or valid and in range, shows
    the same text after it is given the focus as before. *)
Theorem focus_keeps_displayed_text (b : Boundary) (st : IDateRangeInputState) :
  getFocus (focusKeyOf b) st = false ->
  (isNull (getValue (valueKeyOf b) st) = true
   \/ exists t, getValue (valueKeyOf b) st = Some (Valid t) /\ inRange props t) ->
  exists st',
    handleInputFocus props b st = Done st' []
    /\ getFocus (focusKeyOf b) st' = true
    /\ displayedText props b st' = displayedText props b st.
Proof.
  intros F Hv. destruct (focus_slots props b st) as [st' [E [F' [T _]]]].
  exists st'. split; [exact E |]. split; [exact F' |].
  rewrite (displayedText_focused props b st' F'), T.
  rewrite (displayedText_blurred props b st F). f_equal.
  destruct Hv as [Hn | [t [-> Hr]]].
  - now rewrite (seedText_absent _ Hn), (display_absent _ Hn).
  - now rewrite (display_in_range props t Hr).
Qed.

(** X6. Focus followed by blur, with nothing typed, on a field whose value
    is absent: the field is idle again, its value is still absent and it
    shows the empty string; no callback is called. *)
Theorem focus_blur_of_absent_field (b : Boundary) (st : IDateRangeInputState) :
  isNull (getValue (valueKeyOf b) st) = true ->
  exists st',
    run props [focusOf b; blurOf b] st = Done st' []
    /\ getFocus (focusKeyOf b) st' = false
    /\ isNull (getValue (valueKeyOf b) st') = true
    /\ displayedText props b st' = Some "".
Proof.
  intro Hn. destruct (focus_slots props b st) as [st1 [E [_ [T _]]]].
  rewrite (seedText_absent _ Hn) in T.
  pose proof (blur_empty props b st1 T) as B.
  exists (committed b moment.null st1).
  split; [apply (run_two (focusOf b) (blurOf b) st st1);
          [now rewrite dispatch_focusOf | now rewrite dispatch_blurOf] |].
  split; [unfold committed; now autorewrite with slots |].
  split; [unfold committed; now autorewrite with slots |].
  now rewrite display_after_commit.
Qed.

(** X7. Focus followed by blur, with nothing typed, on a field whose value
    is valid and in range and formats to a non-empty text: both stored values
    are what they were, the field is idle and shows the formatted date.  For
    the start field this needs nothing of the date library; for the end field,
    whose text the blur compares with the start field's display string, the
    formatted text must parse back to a day in range. *)
Theorem focus_blur_of_valid_field (b : Boundary) (st : IDateRangeInputState)
        (t : Instant) :
  getValue (valueKeyOf b) st = Some (Valid t) -> inRange props t ->
  formatInstant t (format props) <> "" ->
  (b = BStart
   \/ exists t', parseInstant (formatInstant t (format props)) (format props) = Some t'
                 /\ inRange props t') ->
  exists st',
    run props [focusOf b; blurOf b] st = Done st' []
    /\ (forall k, getValue k st' = getValue k st)
    /\ getFocus (focusKeyOf b) st' = false
    /\ displayedText props b st' = Some (formatInstant t (format props)).
Proof.
  intros Hv Hr Hne Hrt.
  destruct (focus_slots props b st) as [st1 [E [_ [T Vs]]]].
  rewrite Hv in T. simpl in T.
  assert (B : handleInputBlur props b st1 = Done (setFocus (focusKeyOf b) false st1) []).
  { destruct Hrt as [-> | [t' [Hp Hr']]].
    - apply (blur_in_sync props BStart st1 _ T Hne).
      change (startDateValue st1) with (getValue startDateValueK st1).
      rewrite Vs. simpl in Hv. simpl. rewrite Hv.
      symmetry. now apply display_in_range.
    - apply (blur_accepted props b st1 _ T Hne).
      rewrite (ofText_parsed props _ t' Hp), isDateValidAndInRange_Valid.
      now apply dateIsInRange_Valid. }
  exists (setFocus (focusKeyOf b) false st1).
  split; [apply (run_two (focusOf b) (blurOf b) st st1);
          [now rewrite dispatch_focusOf | now rewrite dispatch_blurOf] |].
  split; [intro k; autorewrite with slots; apply Vs |].
  split; [now autorewrite with slots |].
  rewrite displayedText_blurred by now autorewrite with slots.
  autorewrite with slots. rewrite Vs, Hv. f_equal. now apply display_in_range.
Qed.

End UserPaths.

(** ** Typing a date, with and without a [value] prop *)

Section TypingPaths.
Context `{MomentEnv}.
Variable props : IDateRangeInputProps.

Lemma controlled_change_state b s st :
  value props <> None -> s <> "" ->
  handleInputChange props b s st =
    Done (setValueString (valueStringKeyOf b) (Some s) st) [].
Proof.
  intros Hc Hs. rewrite change_by_parse, (isUncontrolled_false props Hc).
  destruct (parse props s) eqn:P.
  - apply parse_empty_iff, length_zero_iff in P. now elim Hs.
  - reflexivity.
  - now rewrite andb_false_r.
Qed.

Lemma controlled_blur_state b s st :
  value props <> None -> s <> "" ->
  getValueString (valueStringKeyOf b) st = Some s ->
  handleInputBlur props b st = Done (setFocus (focusKeyOf b) false st) [].
Proof.
  intros Hc Hs T. rewrite (blur_by_parse props b s st T), (isUncontrolled_false props Hc).
  destruct (parse props s) eqn:P.
  - apply parse_empty_iff, length_zero_iff in P. now elim Hs.
  - now rewrite andb_false_r.
  - now rewrite andb_false_r.
Qed.


(** X9. With a [value] prop supplied: a field is given the focus, any
    non-empty text is typed, and the field is left.  Both stored values are
    what they were before, whether the text parses or not, and the idle field
    shows the display string of its old value again; no callback was called. *)
Theorem typed_text_is_dropped_controlled (b : Boundary) (st : IDateRangeInputState)
        (s : string) :
  value props <> None -> s <> "" ->
  exists st',
    run props [focusOf b; changeOf b s; blurOf b] st = Done st' []
    /\ (forall k, getValue k st' = getValue k st)
    /\ getFocus (focusKeyOf b) st' = false
    /\ displayedText props b st'
       = Some (getDateStringForDisplay props (getValue (valueKeyOf b) st)).
Proof.
  intros Hc Hs.
  destruct (focus_slots props b st) as [st1 [E [_ [_ Vs]]]].
  pose proof (controlled_change_state b s st1 Hc Hs) as C.
  set (st2 := setValueString (valueStringKeyOf b) (Some s) st1) in C.
  assert (T2 : getValueString (valueStringKeyOf b) st2 = Some s)
    by (unfold st2; now autorewrite with slots).
  pose proof (controlled_blur_state b s st2 Hc Hs T2) as B.
  exists (setFocus (focusKeyOf b) false st2).
  split.
  { apply (run_three props (focusOf b) (changeOf b s) (blurOf b) st st1 st2);
      [now rewrite dispatch_focusOf | now rewrite dispatch_changeOf
      | now rewrite dispatch_blurOf]. }
  assert (V3 : forall k, getValue k (setFocus (focusKeyOf b) false st2) = getValue k st)
    by (intro k; unfold st2; autorewrite with slots; apply Vs).
  split; [exact V3 |].
  split; [now autorewrite with slots |].
  rewrite displayedText_blurred by now autorewrite with slots.
  now rewrite V3.
Qed.

(** X10. A change of a field's text to the empty string, with or without a
    [value] prop and whether the field has the focus or not: the stored value
    becomes [null], the field shows the empty string, it does not get the
    danger class, and the picker is handed [null] for this end. *)
Theorem change_to_empty_clears_field (b : Boundary) (st : IDateRangeInputState) :
  exists st',
    handleInputChange props b "" st = Done st' []
    /\ getValue (valueKeyOf b) st' = None
    /\ displayedText props b st' = Some ""
    /\ inputDanger props b st' = false
    /\ pickerDate props b st' = None.
Proof.
  eexists. split; [apply change_empty |].
  split; [now autorewrite with slots |].
  split.
  { destruct b; simpl;
      [destruct (isStartDateInputFocused st) | destruct (isEndDateInputFocused st)];
      reflexivity. }
  split.
  - destruct b; simpl;
      [destruct (isStartDateInputFocused st) | destruct (isEndDateInputFocused st)];
      simpl; now rewrite ?orb_true_r.
  - rewrite pickerDate_getValue. now autorewrite with slots.
Qed.

End TypingPaths.

(** ** The danger class *)

Section Danger.
Context `{MomentEnv}.
Variable props : IDateRangeInputProps.

Lemma inputDanger_focused b st :
  getFocus (focusKeyOf b) st = true ->
  inputDanger props b st =
    negb (isDateValidAndInRange props
            (Some (moment.ofText (getValueString (valueStringKeyOf b) st) (format props)))
          || isNull (Some (moment.ofText (getValueString (valueStringKeyOf b) st)
                             (format props)))
          || isEmptyText (getValueString (valueStringKeyOf b) st)).
Proof. destruct b; simpl; now intros ->. Qed.

Lemma inputDanger_idle b st :
  getFocus (focusKeyOf b) st = false ->
  inputDanger props b st =
    negb (isDateValidAndInRange props (getValue (valueKeyOf b) st)
          || isNull (getValue (valueKeyOf b) st)
          || String.eqb (getDateStringForDisplay props (getValue (valueKeyOf b) st)) "").
Proof. destruct b; simpl; now intros ->. Qed.

Lemma eqb_empty_false s : s <> "" -> String.eqb s "" = false.
Proof. apply eqb_neq_false. Qed.

(** X11. A field that has the focus gets the danger class exactly when its
    text is a non-empty string that does not parse, or parses to a day out of
    range.  An empty or [null] text never flags the field. *)
Theorem danger_of_focused_field (b : Boundary) (st : IDateRangeInputState) :
  getFocus (focusKeyOf b) st = true ->
  (inputDanger props b st = true
   <-> exists s,
         getValueString (valueStringKeyOf b) st = Some s /\ s <> ""
         /\ (parseInstant s (format props) = None
             \/ exists t, parseInstant s (format props) = Some t /\ ~ inRange props t)).
Proof.
  intro F. rewrite (inputDanger_focused b st F).
  destruct (getValueString (valueStringKeyOf b) st) as [s|].
  - destruct (String.eqb s "") eqn:Es.
    + apply String.eqb_eq in Es. subst s. simpl isEmptyText.
      rewrite !orb_true_r. simpl. split; [discriminate |].
      intros [s [E [Hs _]]]. injection E as <-. now elim Hs.
    + apply String.eqb_neq in Es. simpl isEmptyText.
      rewrite (eqb_empty_false s Es), orb_false_r.
      assert (Hn : isNull (Some (moment.ofText (Some s) (format props))) = false).
      { unfold moment.ofText. now destruct (parseInstant s (format props)). }
      rewrite Hn, orb_false_r, negb_true_iff, rejected_iff.
      split.
      * intro R. exists s. now repeat split.
      * intros [s' [E [_ R]]]. now injection E as <-.
  - simpl. split; [discriminate |]. intros [s [E _]]. discriminate E.
Qed.

(** X12. An idle field gets the danger class exactly when its stored value
    is an invalid moment not made from [null] and [invalidDateMessage] is not
    empty, or a valid moment out of range and [outOfRangeMessage] is not
    empty.  An absent value, a date in range, or an empty message leave the
    field unflagged. *)
Theorem danger_of_idle_field (b : Boundary) (st : IDateRangeInputState) :
  getFocus (focusKeyOf b) st = false ->
  (inputDanger props b st = true
   <-> (getValue (valueKeyOf b) st = Some (Invalid false)
        /\ invalidDateMessage props <> "")
       \/ exists t, getValue (valueKeyOf b) st = Some (Valid t)
                    /\ ~ inRange props t /\ outOfRangeMessage props <> "").
Proof.
  intro F. rewrite (inputDanger_idle b st F).
  destruct (getValue (valueKeyOf b) st) as [[[|]|t]|].
  - simpl. split; [discriminate |].
    intros [[E _] | [t [E _]]]; discriminate E.
  - rewrite display_invalid. simpl. rewrite negb_true_iff. split.
    + intro E. left. split; [reflexivity | now apply String.eqb_neq].
    + intros [[_ Hm] | [t [E _]]]; [now apply String.eqb_neq | discriminate E].
  - rewrite isDateValidAndInRange_Valid.
    destruct (dateIsInRange props (Some (Valid t))) eqn:R.
    + simpl. split; [discriminate |].
      apply dateIsInRange_Valid in R.
      intros [[E _] | [t' [E [Hn _]]]]; [discriminate E |].
      injection E as <-. now elim Hn.
    + apply dateIsInRange_Valid_false in R.
      rewrite (display_out_of_range props t R). simpl. rewrite negb_true_iff. split.
      * intro E. right. exists t. repeat split; [exact R | now apply String.eqb_neq].
      * intros [[E _] | [t' [_ [_ Hm]]]]; [discriminate E | now apply String.eqb_neq].
  - simpl. split; [discriminate |].
    intros [[E _] | [t [E _]]]; discriminate E.
Qed.

End Danger.

(** ** Picking, bounds and the popover *)

Section PickerPaths.
Context `{MomentEnv}.
Variable props : IDateRangeInputProps.

Lemma pick_slots r st :
  exists st',
    handleDateRangeChange props r st = Done st' []
    /\ (forall b, getValue (valueKeyOf b) st' = Some (fromDateToMoment (rangeEnd b r)))
    /\ (forall b, getValueString (valueStringKeyOf b) st'
                  = Some (match rangeEnd b r with
                          | Some _ => moment.format (fromDateToMoment (rangeEnd b r))
                                                    (format props)
                          | None => ""
                          end))
    /\ (forall b, getFocus (focusKeyOf b) st' = getFocus (focusKeyOf b) st).
Proof.
  destruct r as [d1 d2]. eexists. split; [reflexivity |].
  repeat split; intro b; destruct b; reflexivity.
Qed.

(** X13. After a calendar pick, whichever fields have the focus: a field
    whose end of the picked range is [null] shows the empty string, is not
    flagged, and the picker is handed [null] for it; a field whose end is a
    date that moment accepts on a day in range shows that date formatted
    under [format], and the picker is handed the date built from it. *)
Theorem pick_is_shown_in_both_fields (b : Boundary) (r : DateRange)
        (st : IDateRangeInputState) :
  exists st',
    handleDateRangeChange props r st = Done st' []
    /\ (rangeEnd b r = None ->
        displayedText props b st' = Some ""
        /\ inputDanger props b st' = false
        /\ pickerDate props b st' = None)
    /\ (forall d t,
          rangeEnd b r = Some (ValidDate d) ->
          arrayInstant (dateFields d) = Some t -> inRange props t ->
          displayedText props b st' = Some (formatInstant t (format props))
          /\ pickerDate props b st' = Some (ValidDate (newDate (instantFields t)))).
Proof.
  destruct (pick_slots r st) as [st' [E [Vs [Ts Fs]]]].
  exists st'. split; [exact E |]. split.
  - intro Hn. specialize (Vs b). specialize (Ts b). rewrite Hn in Vs, Ts.
    simpl in Vs.
    assert (D : displayedText props b st' = Some "").
    { destruct (getFocus (focusKeyOf b) st') eqn:F.
      - now rewrite (displayedText_focused props b st' F).
      - now rewrite (displayedText_blurred props b st' F), Vs. }
    split; [exact D |]. split.
    + destruct (getFocus (focusKeyOf b) st') eqn:F.
      * rewrite (inputDanger_focused props b st' F), Ts. simpl.
        now rewrite !orb_true_r.
      * rewrite (inputDanger_idle props b st' F), Vs. reflexivity.
    + now rewrite pickerDate_getValue, Vs.
  - intros d t Hd Ha Hr. specialize (Vs b). specialize (Ts b). rewrite Hd in Vs, Ts.
    simpl in Vs, Ts. unfold moment.ofArray in Vs, Ts. rewrite Ha in Vs, Ts.
    simpl in Ts. split.
    + destruct (getFocus (focusKeyOf b) st') eqn:F.
      * now rewrite (displayedText_focused props b st' F).
      * rewrite (displayedText_blurred props b st' F), Vs. f_equal.
        now apply display_in_range.
    + rewrite pickerDate_getValue, Vs, isDateValidAndInRange_Valid.
      apply dateIsInRange_Valid in Hr. now rewrite Hr.
Qed.

(** X14. When [maxDate] falls on an earlier day than [minDate], no day is in
    range: no typed text is ever stored (a change to a non-empty text only
    replaces the raw text), every valid stored date displays as
    [outOfRangeMessage] once idle, and the picker is handed [null] for both
    ends in every state. *)
Theorem inverted_bounds_reject_everything (b : Boundary) (s : string)
        (st : IDateRangeInputState) :
  (dateDay (maxDate props) < dateDay (minDate props))%Z -> s <> "" ->
  handleInputChange props b s st
    = Done (setValueString (valueStringKeyOf b) (Some s) st) []
  /\ (forall t, getDateStringForDisplay props (Some (Valid t)) = outOfRangeMessage props)
  /\ getCurrentDateRange props st = (None, None).
Proof.
  intros Hinv Hs.
  assert (Hno : forall t, ~ inRange props t) by (intros t [H1 H2]; lia).
  assert (Hv : forall v, isDateValidAndInRange props v = false).
  { intro v. destruct (isDateValidAndInRange props v) eqn:E; [| reflexivity].
    apply isDateValidAndInRange_true in E. destruct E as [t [_ Ht]].
    now elim (Hno t). }
  split; [apply change_rejected; [exact Hs | apply Hv] |].
  split; [intro t; apply display_out_of_range, Hno |].
  unfold getCurrentDateRange. now rewrite !Hv.
Qed.

(** X15. The popover's open flag after an event: a focus leaves it open if it
    was, and opens it when [openOnFocus] is set; a close request closes it;
    typing, leaving a field and a calendar pick leave it as it is. *)
Theorem open_flag_after_event (e : Event) (st st' : IDateRangeInputState)
        (calls : list Callback) :
  dispatch props e st = Done st' calls ->
  isOpen st' =
    match e with
    | StartFocus | EndFocus => isOpen st || openOnFocus props
    | ClosePopover => false
    | _ => isOpen st
    end.
Proof.
  destruct e; simpl; unfold_handlers; split_tests;
    intro E; try discriminate E; injection E as <- _; simpl;
    now rewrite ?orb_true_r, ?orb_false_r.
Qed.

(** X16. With [openOnFocus] off the popover never opens: in every reachable
    state the open flag is false. *)
Theorem popover_stays_closed_without_openOnFocus (st : IDateRangeInputState) :
  openOnFocus props = false -> reachable props st -> isOpen st = false.
Proof.
  intros Hoo R. induction R as [|e st st' calls _ IH D].
  - unfold initialState. now destruct getDefaultDateRange.
  - revert D. destruct e; simpl; unfold_handlers; rewrite ?Hoo; split_tests;
      intro E; try discriminate E; injection E as <- _; simpl; exact IH || reflexivity.
Qed.

(** X17. Focus, typing and blur on one field leave the other field's stored
    value, raw text and focus flag as they were. *)
Theorem other_field_is_untouched (b b' : Boundary) (st st' : IDateRangeInputState)
        (calls : list Callback) :
  b' <> b ->
  (handleInputFocus props b st = Done st' calls
   \/ handleInputBlur props b st = Done st' calls
   \/ exists s, handleInputChange props b s st = Done st' calls) ->
  getValue (valueKeyOf b') st' = getValue (valueKeyOf b') st
  /\ getValueString (valueStringKeyOf b') st' = getValueString (valueStringKeyOf b') st
  /\ getFocus (focusKeyOf b') st' = getFocus (focusKeyOf b') st.
Proof.
  intros Hb Hev.
  destruct b, b'; try (now elim Hb); clear Hb;
    (destruct Hev as [E | [E | [s E]]]; revert E; simpl; unfold_handlers; split_tests;
     intro E; try discriminate E; injection E as <- _; repeat split).
Qed.

End PickerPaths.

(** ** Errors, callbacks and the constructor *)

Section Safety.
Context `{MomentEnv}.
Variable props : IDateRangeInputProps.

(** X18. A blur throws exactly when the field's raw text is [null] (the
    handler reads [valueString.length]); with a string in the slot it
    returns. *)
Theorem blur_throws_iff_text_is_null (b : Boundary) (st : IDateRangeInputState) :
  handleInputBlur props b st = TypeError
  <-> getValueString (valueStringKeyOf b) st = None.
Proof.
  split.
  - intro E. destruct (getValueString (valueStringKeyOf b) st) as [s|] eqn:T;
      [| reflexivity].
    rewrite (blur_by_parse props b s st T) in E.
    destruct (parse props s);
      repeat match type of E with
        | context [if ?c then _ else _] => destruct c
        end; discriminate E.
  - apply blur_null_text.
Qed.

(** X19. In every state the component can reach, leaving a field that has
    the focus returns: it does not throw, it calls nothing, and the field is
    idle afterwards with the popover's flag unchanged. *)
Theorem blur_of_focused_field_is_safe (b : Boundary) (st : IDateRangeInputState) :
  reachable props st -> getFocus (focusKeyOf b) st = true ->
  exists st',
    handleInputBlur props b st = Done st' []
    /\ getFocus (focusKeyOf b) st' = false
    /\ isOpen st' = isOpen st.
Proof.
  intros R F. apply reachable_focusedTextPresent in R. destruct R as [Rs Re].
  assert (exists s, getValueString (valueStringKeyOf b) st = Some s) as [s Hs].
  { destruct b; simpl in *;
      [destruct (startDateValueString st) as [s|] | destruct (endDateValueString st) as [s|]];
      try (now exists s); [now elim (Rs F) | now elim (Re F)]. }
  rewrite (blur_by_parse props b s st Hs).
  destruct (parse props s);
    repeat match goal with
      | |- context [if ?c then _ else _] => destruct c
      end;
    eexists; (split; [reflexivity |]); unfold committed;
    (split; [now autorewrite with slots | now destruct b]).
Qed.

(** X20. No sequence of events makes the component call [onChange] or
    [onError]: a run throws, or it returns with an empty list of calls. *)
Theorem no_event_sequence_calls_back (es : list Event) (st : IDateRangeInputState) :
  run props es st = TypeError \/ exists st', run props es st = Done st' [].
Proof.
  destruct (run props es st) as [st' calls|] eqn:R; [right | now left].
  exists st'. now rewrite (run_calls_nothing props es st st' calls R).
Qed.

Lemma initialState_value b :
  getValue (valueKeyOf b) (initialState props)
  = Some (fromDateToMoment (seedDate props b)).
Proof.
  unfold initialState, getDefaultDateRange, seedDate.
  destruct (value props) as [[[v0|] [v1|]]|], (defaultValue props) as [[d0 d1]|];
    destruct b; reflexivity.
Qed.

(** X21. The constructor's state: for each boundary the stored value is the
    moment made from that end of [value] when a [value] prop is supplied and
    that end is not [null], and otherwise from that end of [defaultValue]
    (from [null] when there is no [defaultValue]); the value is absent exactly
    when that seeding date is [null].  Both fields are idle with a [null] raw
    text, so each shows the display string of its value, and the popover is
    closed. *)
Theorem constructor_seeds_each_end (b : Boundary) :
  getValue (valueKeyOf b) (initialState props)
  = Some (fromDateToMoment (seedDate props b))
  /\ (isNull (getValue (valueKeyOf b) (initialState props)) = true
      <-> seedDate props b = None)
  /\ getValueString (valueStringKeyOf b) (initialState props) = None
  /\ getFocus (focusKeyOf b) (initialState props) = false
  /\ isOpen (initialState props) = false
  /\ displayedText props b (initialState props)
     = Some (getDateStringForDisplay props (Some (fromDateToMoment (seedDate props b)))).
Proof.
  assert (F : getFocus (focusKeyOf b) (initialState props) = false).
  { unfold initialState. destruct getDefaultDateRange. now destruct b. }
  split; [apply initialState_value |].
  split; [rewrite initialState_value; apply isNull_fromDateToMoment |].
  split; [unfold initialState; destruct getDefaultDateRange; now destruct b |].
  split; [exact F |].
  split; [unfold initialState; now destruct getDefaultDateRange |].
  now rewrite (displayedText_blurred props b _ F), initialState_value.
Qed.

End Safety.

(** ** Typing a text that is rejected *)

Section RejectedText.
Context `{MomentEnv}.
Variable props : IDateRangeInputProps.

(** X23. While a field has the focus, typing a non-empty text that does not
    parse, or parses to a day out of range, shows the text as typed and gives
    the field the danger class, and the range handed to the picker stays what
    it was: the picker keeps the last accepted dates. *)
Theorem rejected_text_flags_field_keeps_picker (b : Boundary) (s : string)
        (st : IDateRangeInputState) :
  s <> "" ->
  (parseInstant s (format props) = None
   \/ exists t, parseInstant s (format props) = Some t /\ ~ inRange props t) ->
  getFocus (focusKeyOf b) st = true ->
  exists st',
    handleInputChange props b s st = Done st' []
    /\ displayedText props b st' = Some s
    /\ inputDanger props b st' = true
    /\ getCurrentDateRange props st' = getCurrentDateRange props st.
Proof.
  intros Hs Hrej F. apply rejected_iff in Hrej.
  exists (setValueString (valueStringKeyOf b) (Some s) st).
  assert (F' : getFocus (focusKeyOf b) (setValueString (valueStringKeyOf b) (Some s) st)
               = true) by now autorewrite with slots.
  split; [now apply change_rejected |].
  split; [rewrite (displayedText_focused props b _ F'); now autorewrite with slots |].
  split.
  - rewrite (inputDanger_focused props b _ F'). autorewrite with slots.
    rewrite Hrej. simpl isEmptyText. rewrite (eqb_empty_false s Hs).
    unfold moment.ofText. now destruct (parseInstant s (format props)).
  - now destruct b.
Qed.

End RejectedText.

(** ** More statements at concrete states *)

Section MoreInstances.
Import Iso IsoCases HtmlProps.

(** The default call on the sample object strikes [intent] and [text]. *)
Lemma removeNonHTMLProps_lookup_at_sample :
  exists o,
    removeNonHTMLProps nat (fun o => o) callNumber sampleObject None None = Returned o
    /\ forall key,
         getOwn nat o key
         = if listed INVALID_PROPS key then None else getOwn nat sampleObject key.
Proof.
  exact (removeNonHTMLProps_lookup nat (fun o => o) callNumber sampleObject None None
           eq_refl).
Defined.

Lemma removeNonHTMLProps_keeps_order_at_sample :
  exists o,
    removeNonHTMLProps nat (fun o => o) callNumber sampleObject None None = Returned o
    /\ keys nat o = ["className"; "onClick"; "href"].
Proof.
  exact (removeNonHTMLProps_keeps_order nat (fun o => o) callNumber sampleObject None None
           eq_refl).
Defined.

(** A list naming only [href] lets [intent] through, unless merged. *)
Lemma own_list_replaces_default_blacklist_at_sample :
  (exists o,
     removeNonHTMLProps nat (fun o => o) callNumber sampleObject (Some ["href"]) None
     = Returned o
     /\ getOwn nat o "intent" = Some 2)
  /\ (exists o,
        removeNonHTMLProps nat (fun o => o) callNumber sampleObject (Some ["href"])
          (Some false) = Returned o
        /\ getOwn nat o "intent" = Some 2)
  /\ (exists o,
        removeNonHTMLProps nat (fun o => o) callNumber sampleObject (Some ["href"])
          (Some true) = Returned o
        /\ getOwn nat o "intent" = None)
  /\ removeNonHTMLProps nat (fun o => o) callNumber sampleObject None (Some true)
     = removeNonHTMLProps nat (fun o => o) callNumber sampleObject None None.
Proof.
  exact (own_list_replaces_default_blacklist nat (fun o => o) callNumber sampleObject
           ["href"] "intent" eq_refl eq_refl eq_refl).
Defined.

(** With an own [hasOwnProperty] that is a number the default call throws. *)
Lemma removeNonHTMLProps_throws_at_shadowingObject :
  removeNonHTMLProps nat (fun o => o) callNumber shadowingObject None None = Threw.
Proof.
  refine (proj1 (removeNonHTMLProps_throws_on_shadowed_method nat (fun o => o) callNumber
                   shadowingObject None None 1 eq_refl _) _).
  - reflexivity.
  - discriminate.
Defined.

Lemma focus_keeps_displayed_text_at_idle :
  exists st',
    handleInputFocus uncontrolledProps BStart (idle (Some jan15) (Some feb20)) = Done st' []
    /\ getFocus isStartDateInputFocusedK st' = true
    /\ displayedText uncontrolledProps BStart st' = Some "2017-01-15".
Proof.
  refine (focus_keeps_displayed_text uncontrolledProps BStart
            (idle (Some jan15) (Some feb20)) eq_refl _).
  right. exists (ymd 2017 1 15). split; [reflexivity |].
  vm_compute. split; discriminate.
Defined.

Lemma focus_blur_of_absent_field_at_start :
  exists st',
    run uncontrolledProps [EndFocus; EndBlur] (initialState uncontrolledProps)
    = Done st' []
    /\ getFocus isEndDateInputFocusedK st' = false
    /\ isNull (getValue endDateValueK st') = true
    /\ displayedText uncontrolledProps BEnd st' = Some "".
Proof.
  exact (focus_blur_of_absent_field uncontrolledProps BEnd
           (initialState uncontrolledProps) eq_refl).
Defined.

Lemma focus_blur_of_valid_field_at_idle :
  exists st',
    run uncontrolledProps [EndFocus; EndBlur] (idle (Some jan15) (Some feb20))
    = Done st' []
    /\ (forall k, getValue k st' = getValue k (idle (Some jan15) (Some feb20)))
    /\ getFocus isEndDateInputFocusedK st' = false
    /\ displayedText uncontrolledProps BEnd st' = Some "2017-02-20".
Proof.
  refine (focus_blur_of_valid_field uncontrolledProps BEnd
            (idle (Some jan15) (Some feb20)) (ymd 2017 2 20) eq_refl _ _ _).
  - vm_compute. split; discriminate.
  - vm_compute. discriminate.
  - right. exists (ymd 2017 2 20). split; [reflexivity |].
    vm_compute. split; discriminate.
Defined.


Lemma typed_text_is_dropped_controlled_at_start :
  exists st',
    run controlledProps [StartFocus; StartChange "2018-05-05"; StartBlur]
        (initialState controlledProps) = Done st' []
    /\ (forall k, getValue k st' = getValue k (initialState controlledProps))
    /\ getFocus isStartDateInputFocusedK st' = false
    /\ displayedText controlledProps BStart st' = Some "2017-01-15".
Proof.
  refine (typed_text_is_dropped_controlled controlledProps BStart
            (initialState controlledProps) "2018-05-05" _ _); discriminate.
Defined.

Lemma danger_of_focused_field_at_startTyping :
  inputDanger uncontrolledProps BStart (startTyping "2017-13-01") = true
  /\ inputDanger uncontrolledProps BStart (startTyping "") = false.
Proof.
  split.
  - apply (proj2 (danger_of_focused_field uncontrolledProps BStart
                    (startTyping "2017-13-01") eq_refl)).
    exists "2017-13-01". split; [reflexivity |]. split; [discriminate |].
    left. reflexivity.
  - destruct (inputDanger uncontrolledProps BStart (startTyping "")) eqn:E;
      [| reflexivity].
    apply (proj1 (danger_of_focused_field uncontrolledProps BStart
                    (startTyping "") eq_refl)) in E.
    destruct E as [s [T [Hs _]]]. injection T as <-. now elim Hs.
Defined.

Lemma danger_of_idle_field_at_idle :
  inputDanger uncontrolledProps BStart
    (idle (Some (@Valid env (ymd 1999 12 31))) None) = true.
Proof.
  apply (proj2 (danger_of_idle_field uncontrolledProps BStart
                  (idle (Some (@Valid env (ymd 1999 12 31))) None) eq_refl)).
  right. exists (ymd 1999 12 31). split; [reflexivity |]. split.
  - vm_compute. intros [H1 _]. now elim H1.
  - discriminate.
Defined.

Lemma inverted_bounds_reject_everything_at_startTyping :
  handleInputChange invertedProps BStart "2017-01-15" (startTyping "2017-01-1")
    = Done (setValueString startDateValueStringK (Some "2017-01-15")
              (startTyping "2017-01-1")) []
  /\ (forall t, getDateStringForDisplay invertedProps (Some (Valid t)) = "Out of range")
  /\ getCurrentDateRange invertedProps (startTyping "2017-01-1") = (None, None).
Proof.
  refine (inverted_bounds_reject_everything invertedProps BStart "2017-01-15"
            (startTyping "2017-01-1") _ _).
  - reflexivity.
  - discriminate.
Defined.

Lemma open_flag_after_event_at_startTyping :
  isOpen (setFocus isStartDateInputFocusedK false (startTyping "2017-01-15")) = true
  /\ isOpen (setIsOpen false (startTyping "2017-01-15")) = false.
Proof.
  split.
  - exact (open_flag_after_event uncontrolledProps StartBlur (startTyping "2017-01-15")
             (setFocus isStartDateInputFocusedK false (startTyping "2017-01-15")) []
             eq_refl).
  - exact (open_flag_after_event uncontrolledProps ClosePopover (startTyping "2017-01-15")
             (setIsOpen false (startTyping "2017-01-15")) [] eq_refl).
Defined.

Lemma popover_stays_closed_at_freshlyFocused :
  isOpen (freshlyFocused false) = false.
Proof.
  refine (popover_stays_closed_without_openOnFocus iconOnlyProps (freshlyFocused false)
            eq_refl _).
  exact (reachable_step iconOnlyProps StartFocus (initialState iconOnlyProps)
           (freshlyFocused false) [] (reachable_init iconOnlyProps) eq_refl).
Defined.

Lemma other_field_is_untouched_at_startTyping :
  getValue endDateValueK
    (setValueString startDateValueStringK (Some "2017-03-01")
       (setValue startDateValueK (Some (@Valid env (ymd 2017 3 1)))
          (startTyping "2017-03-0")))
  = Some feb20
  /\ getValueString endDateValueStringK
       (setValueString startDateValueStringK (Some "2017-03-01")
          (setValue startDateValueK (Some (@Valid env (ymd 2017 3 1)))
             (startTyping "2017-03-0")))
     = None
  /\ getFocus isEndDateInputFocusedK
       (setValueString startDateValueStringK (Some "2017-03-01")
          (setValue startDateValueK (Some (@Valid env (ymd 2017 3 1)))
             (startTyping "2017-03-0")))
     = false.
Proof.
  refine (other_field_is_untouched uncontrolledProps BStart BEnd
            (startTyping "2017-03-0") _ [] _ _).
  - discriminate.
  - right. right. exists "2017-03-01". reflexivity.
Defined.

Lemma blur_of_focused_field_is_safe_at_startTyping :
  exists st',
    handleInputBlur controlledProps BStart (startTyping "2017-01-15") = Done st' []
    /\ getFocus isStartDateInputFocusedK st' = false
    /\ isOpen st' = true.
Proof.
  refine (blur_of_focused_field_is_safe controlledProps BStart
            (startTyping "2017-01-15") _ eq_refl).
  exact (reachable_step controlledProps StartFocus (initialState controlledProps)
           (startTyping "2017-01-15") [] (reachable_init controlledProps) eq_refl).
Defined.

Lemma rejected_text_flags_field_at_startTyping :
  exists st',
    handleInputChange uncontrolledProps BStart "2017-02-30" (startTyping "2017-02-3")
    = Done st' []
    /\ displayedText uncontrolledProps BStart st' = Some "2017-02-30"
    /\ inputDanger uncontrolledProps BStart st' = true
    /\ getCurrentDateRange uncontrolledProps st'
       = getCurrentDateRange uncontrolledProps (startTyping "2017-02-3").
Proof.
  refine (rejected_text_flags_field_keeps_picker uncontrolledProps BStart "2017-02-30"
            (startTyping "2017-02-3") _ _ eq_refl).
  - discriminate.
  - left. reflexivity.
Defined.

End MoreInstances.

(** ** Years before 100 *)

Section EarlyYears.
Import Iso TwoDigitYears.

(** C10. With a selectable interval from the year 1 to the year 99 and no
    [value] prop, the user types the first of January of the year 50 into the
    start field and leaves it.  The stored moment is that day, which lies in
    the interval, so [getCurrentDateRange] converts it; [fromMomentToDate]
    passes its year to [new Date], which reads 50 as 1950, and the picker is
    handed the first of January 1950, a day after [maxDate]. *)
Theorem picker_gets_year_1950_for_year_50 :
  exists st',
    run earlyProps [StartFocus; StartChange "0050-01-01"; StartBlur]
        (initialState earlyProps) = Done st' []
    /\ startDateValue st' = Some (@Valid env (ymd 50 1 1))
    /\ inRange earlyProps (ymd 50 1 1)
    /\ pickerDate earlyProps BStart st' = Some (@ValidDate env (ymd 1950 1 1))
    /\ ~ (@dateDay env (minDate earlyProps) <= @dateDay env (ymd 1950 1 1)
          <= @dateDay env (maxDate earlyProps))%Z.
Proof.
  eexists. split; [reflexivity |].
  split; [reflexivity |].
  split; [vm_compute; split; discriminate |].
  split; [reflexivity |].
  vm_compute. intros [_ H2]. now elim H2.
Qed.

End EarlyYears.
